(** * Cooldown gate, tool server and callbacks of the agent templates

    A shallow embedding of
    - [check_cool_down]            (agent/agent_1/agent.py),
    - [call_tool]                  (mcp-servers/general/main.py and
                                    mcp-servers/api/main.py, same body),
    - [save_last_action_callback]  (agent/agent3/agent.py),
    - [list_tools]                 (the same two servers),
    - [your_first_function] and [your_second_function]
                                   (mcp-servers/api/main.py),
    - [CooldownPlugin]             (agent/cooldown_plugin.py),
    - the start-up of              mcp-servers/diagnose/agent.py,
    together with the properties the design document states about them
    and further properties the code shows.
    The agents agent/agent_1/agent.py builds are modelled as the tree
    its constructor calls describe; the run loops of the composites
    belong to the agent framework and are not modelled.

    Python values are modelled as follows.  A [str] is a [string]; an [int]
    is a [Z]; a [dict] keyed by strings is a [gmap string _]; an aware
    [datetime] is the number of microseconds since the epoch, a [timedelta]
    a number of microseconds, both in [Z].  A function that prints, reads
    the clock, talks to an HTTP service or raises is a function from the
    state of the world to an outcome and a new state of the world. *)

From Stdlib Require Import Ascii.
From stdpp Require Import gmap strings pretty list.

Set Warnings "-register-all".

#[local] Open Scope string_scope.
#[local] Open Scope Z_scope.
#[local] Open Scope list_scope.

(** ** Python exceptions and effectful code *)

Module Py.

(** The exception classes the modelled code raises or names in an
    [except] clause.  [ConnectionError], [Timeout], [HTTPError] and
    [JSONDecodeError] are the ones of [requests.exceptions]. *)
Inductive ExcClass :=
| BaseException
| KeyboardInterrupt
| Exception
| ValueError
| TypeError
| AttributeError
| RequestException
| ConnectionError
| Timeout
| HTTPError
| JSONDecodeError.

#[export] Instance ExcClass_eq_dec : EqDecision ExcClass.
Proof. solve_decision. Defined.

(** The direct base class ([None] for the root). *)
Definition base (c : ExcClass) : option ExcClass :=
  match c with
  | BaseException => None
  | KeyboardInterrupt => Some BaseException
  | Exception => Some BaseException
  | ValueError | TypeError | AttributeError | RequestException => Some Exception
  | ConnectionError | Timeout | HTTPError | JSONDecodeError => Some RequestException
  end.

(** [issubclass c d]; the hierarchy above has depth 3. *)
Fixpoint issubclass_fuel (n : nat) (c d : ExcClass) : bool :=
  if decide (c = d) then true
  else match n, base c with
       | S n, Some b => issubclass_fuel n b d
       | _, _ => false
       end.

Definition issubclass : ExcClass → ExcClass → bool := issubclass_fuel 3.

(** An exception object: its class and [str(e)]. *)
Record PyExc := mkExc { exc_class : ExcClass; exc_str : string }.

(** [isinstance(e, cls)], the test of [except cls as e]. *)
Definition isinstance (e : PyExc) (cls : ExcClass) : bool :=
  issubclass (exc_class e) cls.

(** How a call ends. *)
Inductive Outcome (A : Type) :=
| Return (a : A)
| Raise (e : PyExc).
Arguments Return {A} a.
Arguments Raise {A} e.

Section Monad.
Context {W : Type}.

(** Code running in a world of type [W]. The world survives a raise:
      what was printed or sent before the exception stays so. *)
Definition M (A : Type) : Type := W → Outcome A * W.

Definition ret {A} (a : A) : M A := λ w, (Return a, w).

Definition bind {A B} (m : M A) (k : A → M B) : M B :=
    λ w, match m w with
         | (Return a, w') => k a w'
         | (Raise e, w') => (Raise e, w')
         end.

Definition raise {A} (e : PyExc) : M A := λ w, (Raise e, w).

(** [try: body  except cls as e: handler e] *)
Definition try_except {A} (body : M A) (cls : ExcClass) (handler : PyExc → M A) : M A :=
    λ w, match body w with
         | (Return a, w') => (Return a, w')
         | (Raise e, w') =>
             if isinstance e cls then handler e w' else (Raise e, w')
         end.
End Monad.

Arguments M : clear implicits.

#[export] Instance M_ret {W} : MRet (M W) := @ret W.
#[export] Instance M_bind {W} : MBind (M W) := λ A B k m, bind m k.

End Py.
Export Py.

(** ** The cooldown gate: agent/agent_1/agent.py *)

Module Agent1.

(** *** The world [check_cool_down] runs in *)

(** What [datetime.fromisoformat] makes of a truthy ["time"] value of the
    service's answer.
    - [Aware utc]: an ISO-8601 string with a UTC offset, denoting the
      instant [utc] (microseconds since the epoch);
    - [Naive wall]: an ISO-8601 string without offset, an offset-naive
      [datetime];
    - [NotIso]: a string that is not ISO-8601 ([ValueError]);
    - [NotStr]: a truthy value that is not a string, such as a number
      ([TypeError]). *)
Inductive Stamp :=
| Aware (utc : Z)
| Naive (wall : Z)
| NotIso
| NotStr.

(** The body of an HTTP response, as [response.json()] and
    [data.get("time")] see it.  [Object None] is a JSON object whose
    ["time"] is missing, [null] or otherwise falsy (the empty string). *)
Inductive Body :=
| NotJson
| NotObject
| Object (time : option Stamp).

#[export] Instance Stamp_eq_dec : EqDecision Stamp.
Proof. solve_decision. Defined.
#[export] Instance Body_eq_dec : EqDecision Body.
Proof. solve_decision. Defined.

Record Response := mkResponse { status_code : Z; body : Body }.

(** How one HTTP exchange goes.
    - [Served]: the request reaches the cooldown service, which answers
      as its contract says;
    - [Refused reason]: the connection cannot be made (service down, no
      URL configured): [requests] raises a [ConnectionError];
    - [TimedOut reason]: no answer in time: [requests] raises a [Timeout];
    - [Intercepted r]: something answers [r] in the service's place
      (a gateway error page, a misbehaving service); the records of the
      service are not touched. *)
Inductive Exchange :=
| Served
| Refused (reason : string)
| TimedOut (reason : string)
| Intercepted (r : Response).

(** One exchange takes [took] microseconds. *)
Record Hop := mkHop { took : N; outcome : Exchange }.

(** The requests [check_cool_down] sends:
    [GET {COOLDOWN_API_URL}/cooldown/{node}] and
    [POST {COOLDOWN_API_URL}/cooldown/{node}] with the JSON body
    [{"timestamp": <isoformat of the aware datetime timestamp>}]. *)
Inductive Request :=
| GET (node : string)
| POST (node : string) (timestamp : Z).

Record World := mkWorld {
  clock   : Z;                  (* UTC wall clock, microseconds since the epoch *)
  store   : gmap string Stamp;  (* the records the cooldown service holds *)
  network : list Hop;           (* how the next exchanges will go; then all are served at once *)
  sent    : list Request;       (* the requests sent so far, oldest first *)
  stdout  : list string         (* the lines printed so far, oldest first *)
}.

Definition print (line : string) : M World unit :=
  λ w, (Return (), mkWorld (clock w) (store w) (network w) (sent w) (stdout w ++ [line])).

(** [datetime.now(timezone.utc)] *)
Definition datetime_now : M World Z :=
  λ w, (Return (clock w), w).

(** Sending [rq] takes the next hop of the network. *)
Definition send (rq : Request) : M World Exchange :=
  λ w, let hop := default (mkHop 0 Served) (head (network w)) in
       (Return (outcome hop),
        mkWorld (clock w + Z.of_N (took hop)) (store w) (tail (network w))
                (sent w ++ [rq]) (stdout w)).

(** Modelled from the spec: the cooldown service is not part of the
    repository.  Section 6 gives its contract:
    [GET /cooldown/{node_name}] answers [{"time": <timestamp> | absent}],
    [POST /cooldown/{node_name}] with [{"timestamp": <timestamp>}] is
    acknowledged; section 3 says there is at most one record per node
    name, which a granted admission updates. *)
Definition service_get (node : string) : M World Response :=
  λ w, (Return (mkResponse 200 (Object (store w !! node))), w).

Definition service_post (node : string) (timestamp : Z) : M World Response :=
  λ w, (Return (mkResponse 200 (Object None)),
        mkWorld (clock w) (<[node := Aware timestamp]> (store w)) (network w)
                (sent w) (stdout w)).

(** [requests.get(f"{COOLDOWN_API_URL}/cooldown/{agent_name}")] *)
Definition requests_get (agent_name : string) : M World Response :=
  how ← send (GET agent_name);
  match how with
  | Served => service_get agent_name
  | Refused reason => raise (mkExc ConnectionError reason)
  | TimedOut reason => raise (mkExc Timeout reason)
  | Intercepted r => mret r
  end.

(** [requests.post(f"{COOLDOWN_API_URL}/cooldown/{agent_name}", json=payload)] *)
Definition requests_post (agent_name : string) (timestamp : Z) : M World Response :=
  how ← send (POST agent_name timestamp);
  match how with
  | Served => service_post agent_name timestamp
  | Refused reason => raise (mkExc ConnectionError reason)
  | TimedOut reason => raise (mkExc Timeout reason)
  | Intercepted r => mret r
  end.

(** [response.raise_for_status()]; the text of the error is shortened. *)
Definition raise_for_status (response : Response) : M World unit :=
  if (400 <=? status_code response) && (status_code response <? 600)
  then raise (mkExc HTTPError (pretty (status_code response) +:+ " Error"))
  else mret ().

(** [response.json()]; the [JSONDecodeError] of [requests] is a
    [RequestException] (since requests 2.27). *)
Definition response_json (response : Response) : M World Body :=
  match body response with
  | NotJson => raise (mkExc JSONDecodeError "Expecting value")
  | data => mret data
  end.

(** [data.get("time")] *)
Definition get_time (data : Body) : M World (option Stamp) :=
  match data with
  | Object time => mret time
  | _ => raise (mkExc AttributeError "object has no attribute 'get'")
  end.

(** A parsed [datetime]: aware (an instant) or naive (a wall time). *)
Inductive datetime :=
| aware (utc : Z)
| naive (wall : Z).

(** [datetime.fromisoformat(last_used_str)] *)
Definition fromisoformat (last_used_str : Stamp) : M World datetime :=
  match last_used_str with
  | Aware utc => mret (aware utc)
  | Naive wall => mret (naive wall)
  | NotIso => raise (mkExc ValueError "Invalid isoformat string")
  | NotStr => raise (mkExc TypeError "fromisoformat: argument must be str")
  end.

(** [now - last_used_time] for an aware [now]: a [timedelta] in
    microseconds. *)
Definition datetime_sub (now : Z) (last_used_time : datetime) : M World Z :=
  match last_used_time with
  | aware utc => mret (now - utc)
  | naive _ =>
      raise (mkExc TypeError "can't subtract offset-naive and offset-aware datetimes")
  end.

(** [timedelta(seconds=s)] *)
Definition timedelta_seconds (s : Z) : Z := s * 1000000.

(** *** The floats of [int(COOLDOWN_PERIOD_SECONDS - td.total_seconds())] *)

(** A finite [float] (binary64): [significand * 2 ^ exponent].  The
    range of the exponent is not modelled: the numbers that occur here
    are zero or between 10^-6 and 10^14 in magnitude, far from overflow
    and from the subnormal numbers. *)
Record Double := mkDouble { significand : Z; exponent : Z }.

(** The integer nearest to [n / d] for [0 < d], a tie going to the even
    one. *)
Definition half_even (n d : Z) : Z :=
  let q := n / d in
  let r := n mod d in
  if 2 * r <? d then q
  else if d <? 2 * r then q + 1
  else if Z.even q then q else q + 1.

(** [n / d / 2 ^ e] as a fraction of integers *)
Definition scaled (n d e : Z) : Z * Z :=
  if 0 <=? e then (n, d * 2 ^ e) else (n * 2 ^ (- e), d).

(** The integer [l] with [2 ^ l <= n / d < 2 ^ (l + 1)], for [0 < n] and
    [0 < d]. *)
Definition ilog2 (n d : Z) : Z :=
  let a := Z.log2 n - Z.log2 d in
  let '(n', d') := scaled n d a in
  if d' <=? n' then a else a - 1.

(** The [float] nearest to [n / d] for [0 < d]: 53 significant bits,
    rounded to nearest, ties to even.  It is what [n / d] gives for
    two [int] (true division is correctly rounded), and what every
    operation on floats gives of its exact result. *)
Definition nearest_double (n d : Z) : Double :=
  if n =? 0 then mkDouble 0 0
  else
    let e := ilog2 (Z.abs n) d - 52 in
    let '(n', d') := scaled n d e in
    mkDouble (half_even n' d') e.

(** [float(n)], the conversion [int - float] applies to the [int] *)
Definition float_of_int (n : Z) : Double := nearest_double n 1.

(** [a - b] on floats *)
Definition float_sub (a b : Double) : Double :=
  let e := Z.min (exponent a) (exponent b) in
  let num := significand a * 2 ^ (exponent a - e) - significand b * 2 ^ (exponent b - e) in
  if 0 <=? e then nearest_double (num * 2 ^ e) 1 else nearest_double num (2 ^ (- e)).

(** [int(f)]: truncation toward zero *)
Definition int_of_float (f : Double) : Z :=
  if 0 <=? exponent f then significand f * 2 ^ exponent f
  else significand f `quot` 2 ^ (- exponent f).

(** [td.total_seconds()], which is
    [(self.days * 86400 + self.seconds) * 10**6 + self.microseconds) / 10**6]:
    the microseconds of [td] divided by [10**6]. *)
Definition total_seconds (td : Z) : Double := nearest_double td 1000000.

(** [int(period - td.total_seconds())] *)
Definition int_seconds_left (period td : Z) : Z :=
  int_of_float (float_sub (float_of_int period) (total_seconds td)).

(** The period and the elapsed time for which the floats lose nothing:
    both below [2^31] seconds in magnitude, about 68 years. *)
Definition float_exact (period td : Z) : Prop :=
  Z.abs period < 2 ^ 31 ∧ Z.abs td < timedelta_seconds (2 ^ 31).

(** [types.Content(parts=[types.Part(text=...)])] *)
Record Part := mkPart { text : string }.
Record Content := mkContent { parts : list Part }.

Record CallbackContext := mkCallbackContext { agent_name : string }.

(** *** The callback *)

Section Gate.

(** The module-level setting [COOLDOWN_PERIOD_SECONDS], 60 in the
    template ("Change this number"). *)
Variable COOLDOWN_PERIOD_SECONDS : Z.

Definition override_message (agent_name : string) (seconds_remaining : Z) : string :=
  "The " +:+ agent_name +:+ " is on cooldown and cannot be used right now. "
  +:+ "Please wait " +:+ pretty seconds_remaining +:+ " seconds before trying again.".

(** [check_cool_down(callback_context)]: [None] lets the agent run, a
    [Content] blocks it with that message.  A [return] inside the
    [except] clause or the [if] is an [inl]/[Some] handed to the end of
    the function. *)
Definition check_cool_down (callback_context : CallbackContext)
  : M World (option Content) :=
  let agent_name := agent_name callback_context in
  print ("[Callback] Before '" +:+ agent_name +:+ "': Checking cooldown status...");;
  (* --- 1. CHECK the Cooldown API --- *)
  fetched ← try_except
    (response ← requests_get agent_name;
     raise_for_status response;;
     data ← response_json response;
     last_used_str ← get_time data;
     mret (inr last_used_str))
    RequestException
    (λ e,
      print ("[Callback] ERROR: Could not reach Cooldown API. Allowing agent to run. Reason: "
             +:+ exc_str e);;
      mret (inl None));
  match fetched with
  | inl returned => mret returned
  | inr last_used_str =>
      (* --- 2. EVALUATE the Cooldown Status --- *)
      blocked ←
        match last_used_str with
        | Some last_used_str =>
            last_used_time ← fromisoformat last_used_str;
            now ← datetime_now;
            time_since_last_use ← datetime_sub now last_used_time;
            if time_since_last_use <? timedelta_seconds COOLDOWN_PERIOD_SECONDS
            then
              let seconds_remaining :=
                int_seconds_left COOLDOWN_PERIOD_SECONDS time_since_last_use in
              print ("[Callback] Cooldown active for '" +:+ agent_name
                     +:+ "'. Terminating with message.");;
              mret (Some (mkContent [mkPart (override_message agent_name seconds_remaining)]))
            else mret None
        | None => mret None
        end;
      match blocked with
      | Some content => mret (Some content)
      | None =>
          (* --- 3. UPDATE the Cooldown API --- *)
          current_time ← datetime_now;
          print ("[Callback] '" +:+ agent_name
                 +:+ "' is available. Updating timestamp via Cooldown API...");;
          try_except
            (requests_post agent_name current_time;; mret ())
            RequestException
            (λ e,
              print ("[Callback] ERROR: Could not update timestamp, but allowing agent to run. Reason: "
                     +:+ exc_str e));;
          (* --- 4. ALLOW the agent to run --- *)
          print ("[Callback] Check complete for '" +:+ agent_name
                 +:+ "'. Proceeding with execution.");;
          mret None
      end
  end.

End Gate.

(** The value the template ships with. *)
Definition COOLDOWN_PERIOD_SECONDS : Z := 60.

(** *** Reading a run *)

(** The hop the next request takes. *)
Definition next_hop (net : list Hop) : Hop := default (mkHop 0 Served) (head net).

(** The time the callback reads after its query: the query took one hop. *)
Definition time_of_check (w : World) : Z :=
  clock w + Z.of_N (took (next_hop (network w))).

(** The same world with another network. *)
Definition with_network (net : list Hop) (w : World) : World :=
  mkWorld (clock w) (store w) net (sent w) (stdout w).

(** The exchanges after which [check_cool_down] treats the query as
    failed: [requests.get] raises, [raise_for_status] raises on a 4xx or
    5xx answer, or [response.json()] raises on a body that is not JSON. *)
Definition store_failure (how : Exchange) : bool :=
  match how with
  | Served => false
  | Refused _ | TimedOut _ => true
  | Intercepted r =>
      (400 <=? status_code r) && (status_code r <? 600) || bool_decide (body r = NotJson)
  end.

(** The lines the callback prints. *)
Definition line_before (agent_name : string) : string :=
  "[Callback] Before '" +:+ agent_name +:+ "': Checking cooldown status...".
Definition line_unreachable (reason : string) : string :=
  "[Callback] ERROR: Could not reach Cooldown API. Allowing agent to run. Reason: " +:+ reason.
Definition line_active (agent_name : string) : string :=
  "[Callback] Cooldown active for '" +:+ agent_name +:+ "'. Terminating with message.".
Definition line_available (agent_name : string) : string :=
  "[Callback] '" +:+ agent_name +:+ "' is available. Updating timestamp via Cooldown API...".
Definition line_not_updated (reason : string) : string :=
  "[Callback] ERROR: Could not update timestamp, but allowing agent to run. Reason: " +:+ reason.
Definition line_complete (agent_name : string) : string :=
  "[Callback] Check complete for '" +:+ agent_name +:+ "'. Proceeding with execution.".

(** The two decisions: [None] lets the agent run, the message blocks it. *)
Definition Allow : option Content := None.
Definition Deny (agent_name : string) (retry_after_seconds : Z) : option Content :=
  Some (mkContent [mkPart (override_message agent_name retry_after_seconds)]).

(** The record the query returns does not block the agent. *)
Definition lets_through (P now : Z) (record : option Stamp) : Prop :=
  record = None ∨ ∃ last, record = Some (Aware last) ∧ timedelta_seconds P ≤ now - last.

(** The exception a record raises that the code cannot read as an aware
    time. *)
Definition unreadable_error (s : Stamp) : option PyExc :=
  match s with
  | Aware _ => None
  | Naive _ => Some (mkExc TypeError "can't subtract offset-naive and offset-aware datetimes")
  | NotIso => Some (mkExc ValueError "Invalid isoformat string")
  | NotStr => Some (mkExc TypeError "fromisoformat: argument must be str")
  end.

(** What the write leaves in the service, and what is printed about it. *)
Definition store_after_write (agent_name : string) (now : Z) (how : Exchange)
    (records : gmap string Stamp) : gmap string Stamp :=
  match how with
  | Served => <[agent_name := Aware now]> records
  | _ => records
  end.

Definition lines_of_write (how : Exchange) : list string :=
  match how with
  | Refused reason | TimedOut reason => [line_not_updated reason]
  | _ => []
  end.

End Agent1.

(** ** Python values and [json.dumps] *)

Module Json.

(** The values tools receive and return.  [VObject type_name] stands for
    any value [json.dumps] cannot serialise (a set, an instance of a
    class).  Floats are not modelled.  A [dict] keeps its insertion
    order, and its keys are strings. *)
Inductive PyVal :=
| VNone
| VBool (b : bool)
| VInt (n : Z)
| VStr (s : string)
| VList (items : list PyVal)
| VDict (items : list (string * PyVal))
| VObject (type_name : string).

Definition dquote : string := String "034"%char EmptyString.
Definition newline : string := String "010"%char EmptyString.

Definition hex_digit (n : N) : ascii :=
  default "0"%char (String.get (N.to_nat n) "0123456789abcdef").

(** One character of a string literal, with [ensure_ascii=True]: the
    short escapes, [\u00xx] for the other characters outside of
    [' '..'~'], the character itself otherwise.  A character is a code
    point below 256. *)
Definition escape_char (c : ascii) : string :=
  match c with
  | "034"%char => "\" +:+ dquote
  | "\"%char => "\\"
  | "010"%char => "\n"
  | "013"%char => "\r"
  | "009"%char => "\t"
  | "008"%char => "\b"
  | "012"%char => "\f"
  | _ =>
      let n := N_of_ascii c in
      if ((n <? 32) || (126 <? n))%N
      then "\u00" +:+ String (hex_digit (n / 16)) (String (hex_digit (n mod 16)) EmptyString)
      else String c EmptyString
  end.

Fixpoint escape (s : string) : string :=
  match s with
  | EmptyString => EmptyString
  | String c rest => escape_char c +:+ escape rest
  end.

(** [json.dumps(s)] for a string [s] *)
Definition quote (s : string) : string := dquote +:+ escape s +:+ dquote.

(** The way back, as [json.loads] reads a string literal after its
    opening quote: the characters up to the closing quote, with the
    escapes undone, and what follows the closing quote. *)
Definition unhex (c : ascii) : option N :=
  let n := N_of_ascii c in
  if ((48 <=? n) && (n <=? 57))%N then Some (n - 48)%N
  else if ((97 <=? n) && (n <=? 102))%N then Some (n - 87)%N
  else if ((65 <=? n) && (n <=? 70))%N then Some (n - 55)%N
  else None.

Definition cons_char (c : ascii) (r : option (string * string)) : option (string * string) :=
  match r with
  | Some (s, tail) => Some (String c s, tail)
  | None => None
  end.

Fixpoint read_string (s : string) : option (string * string) :=
  match s with
  | EmptyString => None
  | String "034"%char tail => Some (EmptyString, tail)
  | String "\"%char (String c rest) =>
      match c with
      | "034"%char => cons_char "034"%char (read_string rest)
      | "\"%char => cons_char "\"%char (read_string rest)
      | "/"%char => cons_char "/"%char (read_string rest)
      | "n"%char => cons_char "010"%char (read_string rest)
      | "r"%char => cons_char "013"%char (read_string rest)
      | "t"%char => cons_char "009"%char (read_string rest)
      | "b"%char => cons_char "008"%char (read_string rest)
      | "f"%char => cons_char "012"%char (read_string rest)
      | "u"%char =>
          match rest with
          | String h1 (String h2 (String h3 (String h4 rest'))) =>
              match unhex h1, unhex h2, unhex h3, unhex h4 with
              | Some a, Some b, Some c, Some d =>
                  let n := (a * 4096 + b * 256 + c * 16 + d)%N in
                  if (n <? 256)%N
                  then cons_char (ascii_of_N n) (read_string rest')
                  else None
              | _, _, _, _ => None
              end
          | _ => None
          end
      | _ => None
      end
  | String "\"%char EmptyString => None
  | String c rest => cons_char c (read_string rest)
  end.

(** [s] without its prefix [p] *)
Fixpoint strip_prefix (p s : string) : option string :=
  match p, s with
  | EmptyString, _ => Some s
  | String a p', String b s' => if Ascii.eqb a b then strip_prefix p' s' else None
  | _, _ => None
  end.

(** ['\n' + ' ' * (indent * level)], or nothing without [indent] *)
Definition newline_indent (indent : option nat) (level : nat) : string :=
  match indent with
  | Some width => newline +:+ String.concat EmptyString (replicate (width * level) " ")
  | None => EmptyString
  end.

(** The separator between items: [', '] without [indent], [','] and a
    new line with it. *)
Definition item_separator (indent : option nat) (level : nat) : string :=
  match indent with
  | Some _ => "," +:+ newline_indent indent level
  | None => ", "
  end.

(** [json.dumps(v, indent=indent)] at nesting depth [level]: the text,
    or the [TypeError] of the first value that cannot be serialised. *)
Fixpoint encode (indent : option nat) (level : nat) (v : PyVal) {struct v}
  : Outcome string :=
  match v with
  | VNone => Return "null"
  | VBool true => Return "true"
  | VBool false => Return "false"
  | VInt n => Return (pretty n)
  | VStr s => Return (quote s)
  | VList [] => Return "[]"
  | VList items =>
      let fix encode_items (l : list PyVal) : Outcome (list string) :=
        match l with
        | [] => Return []
        | x :: l' =>
            match encode indent (S level) x with
            | Raise e => Raise e
            | Return t =>
                match encode_items l' with
                | Raise e => Raise e
                | Return ts => Return (t :: ts)
                end
            end
        end in
      match encode_items items with
      | Raise e => Raise e
      | Return ts =>
          Return ("[" +:+ newline_indent indent (S level)
                  +:+ String.concat (item_separator indent (S level)) ts
                  +:+ newline_indent indent level +:+ "]")
      end
  | VDict [] => Return "{}"
  | VDict items =>
      let fix encode_items (l : list (string * PyVal)) : Outcome (list string) :=
        match l with
        | [] => Return []
        | (k, x) :: l' =>
            match encode indent (S level) x with
            | Raise e => Raise e
            | Return t =>
                match encode_items l' with
                | Raise e => Raise e
                | Return ts => Return ((quote k +:+ ": " +:+ t) :: ts)
                end
            end
        end in
      match encode_items items with
      | Raise e => Raise e
      | Return ts =>
          Return ("{" +:+ newline_indent indent (S level)
                  +:+ String.concat (item_separator indent (S level)) ts
                  +:+ newline_indent indent level +:+ "}")
      end
  | VObject type_name =>
      Raise (mkExc TypeError ("Object of type " +:+ type_name +:+ " is not JSON serializable"))
  end.

Definition dumps (v : PyVal) (indent : option nat) : Outcome string :=
  encode indent 0 v.

(** [needle in hay] *)
Definition contains (needle hay : string) : Prop :=
  ∃ before after, hay = before +:+ needle +:+ after.

End Json.

(** ** The tool servers: mcp-servers/general/main.py, mcp-servers/api/main.py *)

Module McpServer.
Import Json.

(** A [FunctionTool]: its name and what [run_async(args=..., tool_context=None)]
    does with the arguments, which is to return a value or to raise. *)
Record FunctionTool := mkTool {
  name : string;
  run_async : gmap string PyVal → Outcome PyVal
}.

(** [mcp_types.TextContent(type=..., text=...)] *)
Record TextContent := mkTextContent { type : string; text : string }.

(** What the server prints:
    - [Received name arguments]:
      [MCP Server: Received call_tool request for '{name}' with args: {arguments}]
    - [Executed name]: [MCP Server: Tool '{name}' executed successfully.]
    - [ErrorExecuting name e]: [MCP Server: Error executing tool '{name}': {e}]
    - [NotFound name]: [MCP Server: Tool '{name}' not found.] *)
Inductive Printed :=
| Received (name : string) (arguments : gmap string PyVal)
| Executed (name : string)
| ErrorExecuting (name : string) (e : string)
| NotFound (name : string).

(** The server's world is its standard output. *)
Definition print (line : Printed) : M (list Printed) unit :=
  λ out, (Return (), out ++ [line]).

(** A call that touches nothing of the world. *)
Definition call {A} (result : Outcome A) : M (list Printed) A :=
  λ out, (result, out).

(** [{tool.name: tool, ...}], the way both servers build [available_tools] *)
Definition registry (tools : list FunctionTool) : gmap string FunctionTool :=
  list_to_map ((λ tool, (name tool, tool)) <$> tools).

(** [{"error": message}] *)
Definition error_dict (message : string) : PyVal :=
  VDict [("error", VStr message)].

Section Server.

(** The module-level registry [available_tools], keyed by tool name. *)
Variable available_tools : gmap string FunctionTool.

(** [call_tool(name, arguments)], the same in both servers.  A tool
    object is truthy, so [if tool_to_call:] tests that the name is
    registered. *)
Definition call_tool (name : string) (arguments : gmap string PyVal)
  : M (list Printed) (list TextContent) :=
  print (Received name arguments);;
  match available_tools !! name with
  | Some tool_to_call =>
      try_except
        (adk_response ← call (run_async tool_to_call arguments);
         print (Executed name);;
         response_text ← call (dumps adk_response (Some 2%nat));
         mret [mkTextContent "text" response_text])
        Exception
        (λ e,
          print (ErrorExecuting name (exc_str e));;
          error_text ← call (dumps (error_dict ("Failed to execute tool '" +:+ name
                                                 +:+ "': " +:+ exc_str e)) None);
          mret [mkTextContent "text" error_text])
  | None =>
      print (NotFound name);;
      error_text ← call (dumps (error_dict ("Tool '" +:+ name +:+ "' not implemented.")) None);
      mret [mkTextContent "text" error_text]
  end.

End Server.

(** The text of a failure: the JSON object with the one key ["error"]. *)
Definition error_text (message : string) : string :=
  "{" +:+ quote "error" +:+ ": " +:+ quote message +:+ "}".

(** What a client reads back from a text of that shape: the message
    under ["error"]. *)
Definition read_error (text : string) : option string :=
  match strip_prefix ("{" +:+ quote "error" +:+ ": " +:+ dquote) text with
  | Some rest =>
      match read_string rest with
      | Some (message, "}") => Some message
      | _ => None
      end
  | None => None
  end.

(** A registry with the two names of mcp-servers/api/main.py, for
    examples; what the tools do here is made up: the first answers, the
    second raises. *)
Definition example_tools : gmap string FunctionTool :=
  registry
    [ mkTool "your_first_function" (λ _, Return (VStr "Success! Your function returned: 1"));
      mkTool "your_second_function"
        (λ _, Raise (mkExc TypeError "missing 1 required positional argument: 'parameter2'")) ].

End McpServer.

(** ** The after-tool callback: agent/agent3/agent.py *)

Module Agent3.
Import Json.

(** The tool or remote agent that has just run. *)
Record Tool := mkTool { name : string }.

(** What the callback prints:
    - [After agent_name args]:
      [[Callback] After agent '{agent_name}' executed with args: {args}]
    - [Saving agent_name]: [[Callback] Saving last executed agent: {agent_name}] *)
Inductive Printed :=
| After (agent_name : string) (args : gmap string PyVal)
| Saving (agent_name : string).

(** The world of the callback: [tool_context.state], shared by every
    node of the run, and the standard output. *)
Record World := mkWorld {
  state : gmap string PyVal;
  stdout : list Printed
}.

Definition print (line : Printed) : M World unit :=
  λ w, (Return (), mkWorld (state w) (stdout w ++ [line])).

(** [tool_context.state[key] = value] *)
Definition state_set (key : string) (value : PyVal) : M World unit :=
  λ w, (Return (), mkWorld (<[key := value]> (state w)) (stdout w)).

(** [save_last_action_callback(tool, args, tool_context, tool_response)] *)
Definition save_last_action_callback (tool : Tool) (args : gmap string PyVal)
    (tool_response : gmap string PyVal) : M World (option (gmap string PyVal)) :=
  let agent_name := name tool in
  print (After agent_name args);;
  print (Saving agent_name);;
  state_set "last_action" (VStr agent_name);;
  mret (Some tool_response).

End Agent3.

(** ** The agents agent/agent_1/agent.py builds *)

Module Agent1Tree.
Import Agent1.

(** A [before_agent_callback]. *)
Definition Callback : Type := CallbackContext → M World (option Content).

(** An agent as its constructor call describes it:
    [LlmAgent(name=..., output_key=..., before_agent_callback=...)] or
    [LoopAgent(name=..., sub_agents=[...], max_iterations=...,
    before_agent_callback=...)]; a keyword argument the call leaves out
    is [None].  The model, the instruction, the description and the
    tools play no part here. *)
Inductive Agent :=
| LlmAgent (name : string) (output_key : option string)
           (before_agent_callback : option Callback)
| LoopAgent (name : string) (sub_agents : list Agent) (max_iterations : nat)
            (before_agent_callback : option Callback).

Definition name (agent : Agent) : string :=
  match agent with
  | LlmAgent name _ _ | LoopAgent name _ _ _ => name
  end.

Definition before_agent_callback (agent : Agent) : option Callback :=
  match agent with
  | LlmAgent _ _ callback | LoopAgent _ _ _ callback => callback
  end.

Definition sub_agents (agent : Agent) : list Agent :=
  match agent with
  | LlmAgent _ _ _ => []
  | LoopAgent _ sub_agents _ _ => sub_agents
  end.

(** [first_agent = LlmAgent(model=..., name='first_agent', instruction=...,
    tools=[toolFunction])] *)
Definition first_agent : Agent := LlmAgent "first_agent" None None.

(** [second_agent = LlmAgent(model=..., name='second_agent',
    instruction=..., output_key="final_result")] *)
Definition second_agent : Agent := LlmAgent "second_agent" (Some "final_result") None.

(** [root_agent = LoopAgent(name="your_agent_system_name",
    sub_agents=[first_agent, second_agent], max_iterations=2,
    description=..., before_agent_callback=check_cool_down)] *)
Definition root_agent (COOLDOWN_PERIOD_SECONDS : Z) : Agent :=
  LoopAgent "your_agent_system_name" [first_agent; second_agent] 2
            (Some (check_cool_down COOLDOWN_PERIOD_SECONDS)).

(** The agents of a tree: the agent itself, then those below it. *)
Fixpoint agents (agent : Agent) : list Agent :=
  agent ::
    match agent with
    | LlmAgent _ _ _ => []
    | LoopAgent _ sub_agents _ _ => flat_map agents sub_agents
    end.

(** The names of the agents of a tree that were given a
    [before_agent_callback]. *)
Definition gated (agent : Agent) : list string :=
  name <$> filter (λ a, is_Some (before_agent_callback a)) (agents agent).

(** What is asked before [agent] runs: its own [before_agent_callback],
    if it was given one, with the name of the agent in the context;
    [None] lets the agent run.  This is the one thing taken from the
    agent framework (google.adk), whose run loops are not part of the
    repository. *)
Definition before_agent (agent : Agent) : M World (option Content) :=
  match before_agent_callback agent with
  | Some callback => callback (mkCallbackContext (name agent))
  | None => mret None
  end.

End Agent1Tree.

(** ** More of the tool servers: what can be serialised, [list_tools] *)

Module McpListing.
Import Json McpServer.

(** The values [json.dumps] serialises: everything but [VObject],
    at any depth. *)
Fixpoint serialisable (v : PyVal) : bool :=
  match v with
  | VObject _ => false
  | VList items => forallb serialisable items
  | VDict items => forallb (λ kv, serialisable kv.2) items
  | _ => true
  end.

(** The loops of [encode] over the items of a list and of a dict, on
    their own. *)
Definition encode_all (indent : option nat) (level : nat)
  : list PyVal → Outcome (list string) :=
  fix encode_items (l : list PyVal) : Outcome (list string) :=
    match l with
    | [] => Return []
    | x :: l' =>
        match encode indent level x with
        | Raise e => Raise e
        | Return t =>
            match encode_items l' with
            | Raise e => Raise e
            | Return ts => Return (t :: ts)
            end
        end
    end.

Definition encode_pairs (indent : option nat) (level : nat)
  : list (string * PyVal) → Outcome (list string) :=
  fix encode_items (l : list (string * PyVal)) : Outcome (list string) :=
    match l with
    | [] => Return []
    | (k, x) :: l' =>
        match encode indent level x with
        | Raise e => Raise e
        | Return t =>
            match encode_items l' with
            | Raise e => Raise e
            | Return ts => Return ((quote k +:+ ": " +:+ t) :: ts)
            end
        end
    end.

(** What a client reads from a text that is one JSON string literal. *)
Definition read_str (text : string) : option string :=
  match text with
  | String "034"%char rest =>
      match read_string rest with
      | Some (s, EmptyString) => Some s
      | _ => None
      end
  | _ => None
  end.

(** The characters [' '..'~']. *)
Definition printable (c : ascii) : bool :=
  let n := N_of_ascii c in ((32 <=? n) && (n <=? 126))%N.

Fixpoint all_printable (s : string) : bool :=
  match s with
  | EmptyString => true
  | String c rest => printable c && all_printable rest
  end.

(** What [list_tools] prints:
    - [Advertising name]: [MCP Server: Advertising tool: {schema.name}]
    - [Total count]:
      [MCP Server: Received list_tools request. Total tools: {len(mcp_tools)}] *)
Inductive Printed :=
| Advertising (name : string)
| Total (count : nat).

Definition print (line : Printed) : M (list Printed) unit :=
  λ out, (Return (), out ++ [line]).

Definition call {A} (result : Outcome A) : M (list Printed) A :=
  λ out, (result, out).

Section Listing.

(** [mcp_types.Tool] and the conversion [adk_to_mcp_tool_type] belong to
    the libraries: a schema has a name, and the conversion of a tool
    gives a schema or raises. *)
Variable Schema : Type.
Variable schema_name : Schema → string.
Variable adk_to_mcp_tool_type : FunctionTool → Outcome Schema.

(** The [for] loop of [list_tools] over [available_tools.items()], the
    items of the registry in the order they were put in; [mcp_tools] is
    the list built so far. *)
Fixpoint advertise (items : list (string * FunctionTool)) (mcp_tools : list Schema)
  : M (list Printed) (list Schema) :=
  match items with
  | [] => mret mcp_tools
  | (tool_name, tool_instance) :: rest =>
      schema ← call (adk_to_mcp_tool_type tool_instance);
      print (Advertising (schema_name schema));;
      advertise rest (mcp_tools ++ [schema])
  end.

(** [list_tools()], the same in both servers *)
Definition list_tools (items : list (string * FunctionTool))
  : M (list Printed) (list Schema) :=
  mcp_tools ← advertise items [];
  print (Total (length mcp_tools));;
  mret mcp_tools.

End Listing.

(** The items of the registry built from [tools], [{tool.name: tool, ...}],
    when no two tools have the same name. *)
Definition registry_items (tools : list FunctionTool) : list (string * FunctionTool) :=
  (λ tool, (name tool, tool)) <$> tools.

(** Two tools with the names of mcp-servers/api/main.py, for examples;
    what they return here is made up. *)
Definition first_tool : FunctionTool :=
  mkTool "your_first_function" (λ _, Return (VStr "Success! Your function returned: 1")).
Definition second_tool : FunctionTool :=
  mkTool "your_second_function" (λ _, Return (VStr "Data processed successfully!")).

End McpListing.

(** ** The cooldown plugin: agent/cooldown_plugin.py *)

Module Plugin.
Import Json.

(** The body of an answer, as [response.json()] sees it: not JSON, JSON
    that is no object, or an object, a [dict]. *)
Inductive Body :=
| NotJson
| NotDict
| Dict (d : gmap string PyVal).

Record Response := mkResponse { status_code : Z; body : Body }.

(** How one HTTP exchange goes: the connection cannot be made, no answer
    comes within the [timeout=5], or an answer comes. *)
Inductive Exchange :=
| Refused (reason : string)
| TimedOut (reason : string)
| Answered (r : Response).

(** [requests.get(url, timeout=5)] and
    [requests.post(url, json={'timestamp': ..., 'action_type': ...}, timeout=5)] *)
Inductive Request :=
| GET (url : string)
| POST (url : string) (timestamp : Z) (action_type : string).

(** What the plugin prints:
    - [CheckFailed e]: [Cooldown check failed: {e}]
    - [RecordFailed user_id]: [Failed to record action for user {user_id}]
    - [RecordError e]: [Error recording user action: {e}]
    - [Violation user_id remaining_time]:
      [Cooldown violation by user {user_id}: {remaining_time}s remaining]
    - [RemainingError e]: [Error getting remaining time: {e}]
    - [NoUrl]: [WARNING: COOLDOWN_API_URL not configured]
    - [BadPeriod]: [ERROR: COOLDOWN_PERIOD_SECONDS must be positive] *)
Inductive Printed :=
| CheckFailed (e : string)
| RecordFailed (user_id : string)
| RecordError (e : string)
| Violation (user_id : string) (remaining_time : PyVal)
| RemainingError (e : string)
| NoUrl
| BadPeriod.

Record World := mkWorld {
  clock   : Z;              (* UTC wall clock, microseconds since the epoch *)
  network : list Exchange;  (* how the next exchanges will go; then none can be made *)
  sent    : list Request;   (* the requests sent so far, oldest first *)
  stdout  : list Printed    (* what was printed so far, oldest first *)
}.

Definition print (line : Printed) : M World unit :=
  λ w, (Return (), mkWorld (clock w) (network w) (sent w) (stdout w ++ [line])).

(** [datetime.now(timezone.utc)] *)
Definition datetime_now : M World Z :=
  λ w, (Return (clock w), w).

(** Sending [rq] takes the next exchange of the network. *)
Definition send (rq : Request) : M World Response :=
  λ w, let w' := mkWorld (clock w) (tail (network w)) (sent w ++ [rq]) (stdout w) in
       match default (Refused "Connection refused") (head (network w)) with
       | Refused reason => (Raise (mkExc ConnectionError reason), w')
       | TimedOut reason => (Raise (mkExc Timeout reason), w')
       | Answered r => (Return r, w')
       end.

(** [response.json()] *)
Definition response_json (response : Response) : M World Body :=
  match body response with
  | NotJson => raise (mkExc JSONDecodeError "Expecting value")
  | data => mret data
  end.

(** [data.get(key, default)] *)
Definition data_get (data : Body) (key : string) (default_value : PyVal) : M World PyVal :=
  match data with
  | Dict d => mret (default default_value (d !! key))
  | _ => raise (mkExc AttributeError "object has no attribute 'get'")
  end.

(** The truth value of a Python value, as [if] takes it. *)
Definition truthy (v : PyVal) : bool :=
  match v with
  | VNone => false
  | VBool b => b
  | VInt n => negb (n =? 0)
  | VStr s => negb (String.eqb s EmptyString)
  | VList items => negb (bool_decide (items = []))
  | VDict items => negb (bool_decide (items = []))
  | VObject _ => true
  end.

Section Settings.

(** [COOLDOWN_API_URL = os.environ.get("API_SERVER_URL")]: [None] when
    the variable is not set. *)
Variable COOLDOWN_API_URL : option string.
Variable COOLDOWN_PERIOD_SECONDS : Z.

(** [if COOLDOWN_API_URL:] *)
Definition url_set : bool :=
  match COOLDOWN_API_URL with
  | Some url => negb (String.eqb url EmptyString)
  | None => false
  end.

(** [f"{COOLDOWN_API_URL}/<path>/{user_id}"] *)
Definition endpoint (path user_id : string) : string :=
  default "None" COOLDOWN_API_URL +:+ "/" +:+ path +:+ "/" +:+ user_id.

(** [_extract_user_id(request, context)] *)
Definition _extract_user_id : option string := Some "default_user".

(** [_is_user_in_cooldown(user_id)]; what it returns is what the service
    put under ['in_cooldown'], of any type. *)
Definition _is_user_in_cooldown (user_id : string) : M World PyVal :=
  try_except
    (if url_set then
       response ← send (GET (endpoint "check" user_id));
       if status_code response =? 200 then
         data ← response_json response;
         data_get data "in_cooldown" (VBool false)
       else mret (VBool false)
     else mret (VBool false))
    Exception
    (λ e, print (CheckFailed (exc_str e));; mret (VBool false)).

(** [_record_user_action(user_id)] *)
Definition _record_user_action (user_id : string) : M World unit :=
  try_except
    (if url_set then
       timestamp ← datetime_now;
       response ← send (POST (endpoint "record" user_id) timestamp "llm_request");
       if status_code response =? 200 then mret ()
       else print (RecordFailed user_id)
     else mret ())
    Exception
    (λ e, print (RecordError (exc_str e))).

(** [_get_remaining_cooldown_time(user_id)] *)
Definition _get_remaining_cooldown_time (user_id : string) : M World PyVal :=
  try_except
    (returned ←
       (if url_set then
          response ← send (GET (endpoint "remaining" user_id));
          if status_code response =? 200 then
            data ← response_json response;
            remaining ← data_get data "remaining_seconds" (VInt 0);
            mret (Some remaining)
          else mret None
        else mret None);
     match returned with
     | Some remaining => mret remaining
     | None => mret (VInt COOLDOWN_PERIOD_SECONDS)
     end)
    Exception
    (λ e, print (RemainingError (exc_str e));; mret (VInt COOLDOWN_PERIOD_SECONDS)).

(** [_handle_cooldown_violation(agent, request, context, user_id)];
    the message it builds is not used. *)
Definition _handle_cooldown_violation (user_id : string) : M World unit :=
  remaining_time ← _get_remaining_cooldown_time user_id;
  print (Violation user_id remaining_time).

(** [on_agent_request(agent, request, context)]: the request to go on
    with, or [None] to block it. *)
Definition on_agent_request {LlmRequest : Type} (request : LlmRequest)
  : M World (option LlmRequest) :=
  match _extract_user_id with
  | None => mret (Some request)
  | Some user_id =>
      if String.eqb user_id EmptyString then mret (Some request)
      else
        in_cooldown ← _is_user_in_cooldown user_id;
        if truthy in_cooldown then
          _handle_cooldown_violation user_id;;
          mret None
        else
          _record_user_action user_id;;
          mret (Some request)
  end.

(** [validate_configuration()] *)
Definition validate_configuration : M World bool :=
  if negb url_set then print NoUrl;; mret false
  else if COOLDOWN_PERIOD_SECONDS <=? 0 then print BadPeriod;; mret false
  else mret true.

End Settings.

(** The exchanges after which the check lets the user through: every
    one but an answer with status 200 whose body is an object with a
    true value under ['in_cooldown']. *)
Definition says_in_cooldown (how : Exchange) : bool :=
  match how with
  | Answered r =>
      (status_code r =? 200) &&
      match body r with
      | Dict d => truthy (default (VBool false) (d !! "in_cooldown"))
      | _ => false
      end
  | _ => false
  end.

(** The exchange the next request gets. *)
Definition next_exchange (w : World) : Exchange :=
  default (Refused "Connection refused") (head (network w)).

(** The world after one more request [rq] was sent and [lines] were
    printed. *)
Definition after_request (rq : Request) (lines : list Printed) (w : World) : World :=
  mkWorld (clock w) (tail (network w)) (sent w ++ [rq]) (stdout w ++ lines).

(** The number of seconds [_get_remaining_cooldown_time] makes of an
    exchange: what an answer with status 200 holds under
    ['remaining_seconds'], 0 when it holds nothing there, and the whole
    period after any other exchange. *)
Definition remaining_said (period : Z) (how : Exchange) : PyVal :=
  match how with
  | Answered r =>
      if status_code r =? 200 then
        match body r with
        | Dict d => default (VInt 0) (d !! "remaining_seconds")
        | _ => VInt period
        end
      else VInt period
  | _ => VInt period
  end.

End Plugin.

(** ** The start-up of mcp-servers/diagnose/agent.py *)

Module Diagnose.

(** The file holds two templates one after the other: each defines
    [get_agent_async], [initialize] and [get_agent] and runs the start-up
    block; both share the one global [root_agent]. *)
Inductive Template := First | Second.

(** The exceptions the start-up block tells apart: a [RuntimeError],
    another [Exception], or one that is no [Exception] (a
    [KeyboardInterrupt]). *)
Inductive ExcKind := RuntimeError | OtherException | NotException.

Inductive Result (A : Type) :=
| Ok (a : A)
| Raised (kind : ExcKind) (message : string).
Arguments Ok {A} a.
Arguments Raised {A} kind message.

(** What goes to the log:
    - [Initializing]: [log.info("Initializing agent system...")]
    - [Initialized]: [log.info("Agent system initialized successfully.")]
    - [InitializationFailed]: [log.error("Agent system initialization failed.")]
    - [AlreadyInitialized]: [log.info("Agent system already initialized.")]
    - [Starting]: [log.info("Starting agent initialization...")]
    - [Completed]: [log.info("Module initialization completed successfully.")]
    - [RuntimeErrorLogged e]: [log.error(f"RuntimeError during initialization ...: {e}")]
    - [UnexpectedLogged e]: [log.error(f"Unexpected error during initialization: {e}")] *)
Inductive Logged :=
| Initializing
| Initialized
| InitializationFailed
| AlreadyInitialized
| Starting
| Completed
| RuntimeErrorLogged (e : string)
| UnexpectedLogged (e : string).

Section Agents.

(** An [LlmAgent], and its truth value. *)
Variable LlmAgent : Type.
Variable bool_of_agent : LlmAgent → bool.

(** What the call number [n] of a [get_agent_async] gives: it connects to
    the tool servers, which can fail, and builds the agents. *)
Variable creation : Template → nat → Result LlmAgent.

Record World := mkWorld {
  root_agent : option LlmAgent;  (* the global root_agent *)
  attempts   : list Template;    (* the calls of get_agent_async so far, oldest first *)
  log        : list Logged
}.

Definition log_line (line : Logged) (w : World) : World :=
  mkWorld (root_agent w) (attempts w) (log w ++ [line]).

(** [await get_agent_async()] of a template *)
Definition get_agent_async (t : Template) (w : World) : Result LlmAgent * World :=
  (creation t (length (attempts w)),
   mkWorld (root_agent w) (attempts w ++ [t]) (log w)).

(** [await initialize()] of a template *)
Definition initialize (t : Template) (w : World) : Result unit * World :=
  match root_agent w with
  | None =>
      match get_agent_async t (log_line Initializing w) with
      | (Ok agent, w') =>
          let w'' := mkWorld (Some agent) (attempts w') (log w') in
          (Ok (), log_line (if bool_of_agent agent then Initialized
                            else InitializationFailed) w'')
      | (Raised kind message, w') => (Raised kind message, w')
      end
  | Some _ => (Ok (), log_line AlreadyInitialized w)
  end.

(** The start-up block of a template:
    [try: asyncio.run(initialize()) ... except RuntimeError ... except Exception ...] *)
Definition startup (t : Template) (w : World) : Result unit * World :=
  match initialize t (log_line Starting w) with
  | (Ok _, w') => (Ok (), log_line Completed w')
  | (Raised RuntimeError message, w') => (Ok (), log_line (RuntimeErrorLogged message) w')
  | (Raised OtherException message, w') => (Ok (), log_line (UnexpectedLogged message) w')
  | (Raised NotException message, w') => (Raised NotException message, w')
  end.

(** Importing the module runs the two start-up blocks in turn. *)
Definition import_module (w : World) : Result unit * World :=
  match startup First w with
  | (Ok _, w') => startup Second w'
  | failed => failed
  end.

(** [get_agent()], as the second template defines it last; the mark at
    the start of its message is left out. *)
Definition get_agent (w : World) : Result LlmAgent :=
  match root_agent w with
  | None => Raised RuntimeError "Agent system not initialized. Call initialize() first."
  | Some agent => Ok agent
  end.

(** [is_system_ready()] *)
Definition is_system_ready (w : World) : bool :=
  match root_agent w with
  | None => false
  | Some _ => true
  end.

(** The world before the module is imported. *)
Definition fresh : World := mkWorld None [] [].

End Agents.

(** For examples: the tool server of the first template is down, the
    one of the second is up. *)
Definition first_down (t : Template) (n : nat) : Result string :=
  match t with
  | First => Raised OtherException "Connection refused"
  | Second => Ok "diagnose_agent"
  end.

End Diagnose.

(** ** The tools of mcp-servers/api/main.py *)

Module ApiTools.
Import Json.
Import Plugin (Body, NotJson, NotDict, Dict, Response, mkResponse, status_code, body,
               Exchange, Refused, TimedOut, Answered).

(** [requests.post(url)] and [requests.post(url, json=payload)] *)
Inductive Request :=
| POST (url : string) (json : option PyVal).

Record World := mkWorld {
  network : list Exchange;  (* how the next exchanges will go; then none can be made *)
  sent    : list Request    (* the requests sent so far, oldest first *)
}.

Definition requests_post (url : string) (json : option PyVal) : M World Response :=
  λ w, let w' := mkWorld (tail (network w)) (sent w ++ [POST url json]) in
       match default (Refused "Connection refused") (head (network w)) with
       | Refused reason => (Raise (mkExc ConnectionError reason), w')
       | TimedOut reason => (Raise (mkExc Timeout reason), w')
       | Answered r => (Return r, w')
       end.

(** [response.raise_for_status()]; the text of the error is shortened. *)
Definition raise_for_status (response : Response) : M World unit :=
  if (400 <=? status_code response) && (status_code response <? 600)
  then raise (mkExc HTTPError (pretty (status_code response) +:+ " Error"))
  else mret ().

(** [response.json()]; its [JSONDecodeError] is a [RequestException], as
    in the cooldown gate. *)
Definition response_json (response : Response) : M World Body :=
  match body response with
  | NotJson => raise (mkExc JSONDecodeError "Expecting value")
  | data => mret data
  end.

(** [data.get(key)] *)
Definition data_get (data : Body) (key : string) : M World PyVal :=
  match data with
  | Dict d => mret (default VNone (d !! key))
  | _ => raise (mkExc AttributeError "object has no attribute 'get'")
  end.

(** [try: body  except cls1 as e: handler1 e  except cls2 as e: handler2 e]:
    the first clause that matches handles the exception. *)
Definition try_except_except {A} (body : M World A)
    (cls1 : ExcClass) (handler1 : PyExc → M World A)
    (cls2 : ExcClass) (handler2 : PyExc → M World A) : M World A :=
  λ w, match body w with
       | (Return a, w') => (Return a, w')
       | (Raise e, w') =>
           if isinstance e cls1 then handler1 e w'
           else if isinstance e cls2 then handler2 e w'
           else (Raise e, w')
       end.

Section Tools.

(** [API_SERVER_URL = os.environ.get('API_SERVER_URL')] *)
Variable API_SERVER_URL : option string.

(** [str(value)], which an f-string applies to a value it formats. *)
Variable str : PyVal → string.

(** [f"{API_SERVER_URL}<path>"] *)
Definition url (path : string) : string :=
  default "None" API_SERVER_URL +:+ path.

(** [your_first_function()] *)
Definition your_first_function : M World string :=
  try_except_except
    (response ← requests_post (url "/your-endpoint") None;
     raise_for_status response;;
     data ← response_json response;
     result ← data_get data "result";
     mret ("Success! Your function returned: " +:+ str result))
    RequestException
    (λ e, mret ("Error: Your function failed. Reason: " +:+ exc_str e))
    Exception
    (λ e, mret ("Unexpected error: " +:+ exc_str e)).

(** [your_second_function(parameter1, parameter2)], for a [str] and an
    [int] as its signature says. *)
Definition your_second_function (parameter1 : string) (parameter2 : Z) : M World string :=
  try_except
    (let payload := VDict [("message", VStr parameter1); ("user_id", VInt parameter2)] in
     response ← requests_post (url "/send-notification") (Some payload);
     raise_for_status response;;
     data ← response_json response;
     message_id ← data_get data "message_id";
     mret ("Notification sent successfully! Message ID: " +:+ str message_id))
    Exception
    (λ e, mret ("Failed to send notification. Error: " +:+ exc_str e)).

End Tools.

(** The exchange the next request gets. *)
Definition next_exchange (w : World) : Exchange :=
  default (Refused "Connection refused") (head (network w)).

(** The world after one more request was sent. *)
Definition after_request (rq : Request) (w : World) : World :=
  mkWorld (tail (network w)) (sent w ++ [rq]).

(** [text] starts with [start]. *)
Definition starts_with (start text : string) : Prop :=
  ∃ rest, text = start +:+ rest.

End ApiTools.

(** * Properties *)

(** ** Exceptions *)

Example connection_error_is_request_exception :
  isinstance (mkExc ConnectionError "refused") RequestException = true.
Proof. reflexivity. Qed.

Example value_error_is_no_request_exception :
  isinstance (mkExc ValueError "Invalid isoformat string") RequestException = false.
Proof. reflexivity. Qed.

Example keyboard_interrupt_is_no_exception :
  isinstance (mkExc KeyboardInterrupt "interrupted") Exception = false.
Proof. reflexivity. Qed.

(** ** Strings *)

Lemma string_app_assoc (s1 s2 s3 : string) : (s1 +:+ s2) +:+ s3 = s1 +:+ (s2 +:+ s3).
Proof. induction s1 as [| c s1 IH]; [done | exact (f_equal (String c) IH)]. Qed.

Lemma string_app_nil_r (s : string) : s +:+ EmptyString = s.
Proof. induction s as [| c s IH]; [done | exact (f_equal (String c) IH)]. Qed.

(** ** The cooldown gate *)

Section Agent1_runs.
Import Agent1.

(** Symbolic execution of the callback: unfold the primitives, then
    decide the [isinstance] tests of the [except] clauses. *)
Ltac eval_isinstance :=
  repeat match goal with
    | |- context [isinstance (mkExc ?c ?s) ?d] =>
        let b := eval vm_compute in (issubclass c d) in
        change (isinstance (mkExc c s) d) with b
    end.

Ltac run_gate :=
  repeat progress
    (cbv [check_cool_down requests_get requests_post send service_get service_post
          raise_for_status response_json get_time fromisoformat datetime_sub
          datetime_now print try_except mbind M_bind bind mret M_ret ret raise
          next_hop Allow Deny];
     cbn [fst snd clock store network sent stdout outcome took status_code body
          agent_name];
     try change ((400 <=? 200) && (200 <? 600)) with false;
     eval_isinstance).

(** *** Arithmetic of the remaining time *)

(** The seconds left on small inputs, and on a record far in the
    future, where the floats no longer hold the microseconds: the code
    says one second more than the exact difference cut to seconds. *)
Example int_seconds_left_half_second : int_seconds_left 60 500000 = 59.
Proof. reflexivity. Qed.

Example int_seconds_left_samples :
  int_seconds_left 60 100500000 = -40 ∧
  int_seconds_left 60 59999999 = 0 ∧
  int_seconds_left 86400 1 = 86399 ∧
  int_seconds_left 3600 (-9007199254740993) = 9007202854 ∧
  int_seconds_left 2147483647 (-2147483647999999) = 4294967294.
Proof. repeat split; reflexivity. Qed.

Example int_seconds_left_far_future :
  int_seconds_left 60 (-21912327860999999) = 21912327921 ∧
  (timedelta_seconds 60 - -21912327860999999) `quot` 1000000 = 21912327920.
Proof. split; reflexivity. Qed.

Lemma half_even_spec n d :
  0 < d → - d ≤ 2 * (half_even n d * d - n) ≤ d.
Proof.
  intros Hd. unfold half_even.
  pose proof (Z.div_mod n d ltac:(lia)) as Hdm.
  pose proof (Z.mod_pos_bound n d Hd) as Hr.
  destruct (2 * (n `mod` d) <? d) eqn:H1; [apply Z.ltb_lt in H1; nia |].
  apply Z.ltb_ge in H1.
  destruct (d <? 2 * (n `mod` d)) eqn:H2; [apply Z.ltb_lt in H2; nia |].
  apply Z.ltb_ge in H2.
  destruct (Z.even (n `div` d)); nia.
Qed.

Lemma half_even_exact j d : 0 < d → half_even (j * d) d = j.
Proof.
  intros Hd. unfold half_even.
  rewrite Z.div_mul, Z.mod_mul by lia.
  replace (2 * 0 <? d) with true; [reflexivity |].
  symmetry. apply Z.ltb_lt. lia.
Qed.

(** A quotient below [2 ^ k] has its leading bit below [k]. *)
Lemma ilog2_lt n d k :
  0 < n → 0 < d → 0 ≤ k → n < 2 ^ k * d → ilog2 n d < k.
Proof.
  intros Hn Hd Hk Hlt. unfold ilog2.
  destruct (Z.log2_spec n Hn) as [Hn1 _].
  destruct (Z.log2_spec d Hd) as [_ Hd2].
  pose proof (Z.log2_nonneg n) as Hln. pose proof (Z.log2_nonneg d) as Hld.
  assert (Z.log2 n < k + Z.log2 d + 1) as Ha.
  { apply (Z.pow_lt_mono_r_iff 2); [lia | lia |].
    replace (k + Z.log2 d + 1) with (k + Z.succ (Z.log2 d)) by lia.
    rewrite Z.pow_add_r by lia.
    assert (0 < 2 ^ k) by (apply Z.pow_pos_nonneg; lia). nia. }
  set (a := Z.log2 n - Z.log2 d) in *.
  destruct (Z.eq_dec a k) as [Heq | Hne].
  - unfold scaled. replace (0 <=? a) with true by (symmetry; apply Z.leb_le; lia).
    replace (d * 2 ^ a <=? n) with false; [lia |].
    symmetry. apply Z.leb_gt. rewrite Heq. lia.
  - destruct (scaled n d a) as [n' d']. destruct (d' <=? n'); lia.
Qed.

(** The float nearest to a quotient below [2 ^ k]: it is
    [m / 2 ^ j], at most [2 ^ (k - 54)] away from the quotient, and the
    quotient itself when that is an integer. *)
Lemma nearest_double_small n d k :
  0 < d → 0 ≤ k ≤ 52 → Z.abs n < 2 ^ k * d →
  ∃ j m,
    nearest_double n d = mkDouble m (- j) ∧ 0 ≤ j ∧
    - (d * 2 ^ j) ≤ (m * d - n * 2 ^ j) * 2 ^ (54 - k) ≤ d * 2 ^ j ∧
    (∀ q, n = q * d → m = q * 2 ^ j).
Proof.
  intros Hd Hk Hlt. unfold nearest_double.
  destruct (n =? 0) eqn:Hn0.
  - apply Z.eqb_eq in Hn0. subst n. exists 0, 0.
    split; [reflexivity |]. split; [lia |]. split; [| intros q Hq; nia].
    rewrite Z.pow_0_r. lia.
  - apply Z.eqb_neq in Hn0.
    pose proof (ilog2_lt (Z.abs n) d k ltac:(lia) Hd ltac:(lia) Hlt) as HL.
    set (e := ilog2 (Z.abs n) d - 52) in *.
    unfold scaled. replace (0 <=? e) with false by (symmetry; apply Z.leb_gt; lia).
    exists (- e), (half_even (n * 2 ^ (- e)) d).
    split; [rewrite Z.opp_involutive; reflexivity |]. split; [lia |].
    pose proof (half_even_spec (n * 2 ^ (- e)) d Hd) as Hh.
    assert (2 ^ (54 - k) = 2 * 2 ^ (53 - k)) as ->.
    { replace (54 - k) with (1 + (53 - k)) by lia. rewrite Z.pow_add_r by lia. reflexivity. }
    assert (0 < 2 ^ (53 - k) ≤ 2 ^ (- e)) as Hpow.
    { split; [apply Z.pow_pos_nonneg; lia | apply Z.pow_le_mono_r; lia]. }
    split; [nia |].
    intros q ->. replace (q * d * 2 ^ (- e)) with (q * 2 ^ (- e) * d) by ring.
    apply half_even_exact; exact Hd.
Qed.

Lemma float_sub_small ma ja mb jb :
  0 ≤ ja → 0 ≤ jb →
  float_sub (mkDouble ma (- ja)) (mkDouble mb (- jb))
    = nearest_double (ma * 2 ^ (Z.max ja jb - ja) - mb * 2 ^ (Z.max ja jb - jb))
        (2 ^ Z.max ja jb).
Proof.
  intros Ha Hb. unfold float_sub. cbn [exponent significand].
  replace (Z.min (- ja) (- jb)) with (- Z.max ja jb) by lia.
  replace (- ja - - Z.max ja jb) with (Z.max ja jb - ja) by lia.
  replace (- jb - - Z.max ja jb) with (Z.max ja jb - jb) by lia.
  rewrite Z.opp_involutive.
  destruct (0 <=? - Z.max ja jb) eqn:He; [| reflexivity].
  apply Z.leb_le in He. replace (Z.max ja jb) with 0 by lia.
  rewrite Z.pow_0_r, Z.mul_1_r; reflexivity.
Qed.

Lemma int_of_float_small m j :
  0 ≤ j → int_of_float (mkDouble m (- j)) = m `quot` 2 ^ j.
Proof.
  intros Hj. unfold int_of_float. cbn [exponent significand].
  destruct (0 <=? - j) eqn:He.
  - apply Z.leb_le in He. replace j with 0 by lia.
    rewrite Z.opp_0, Z.pow_0_r, Z.quot_1_r, Z.mul_1_r; reflexivity.
  - rewrite Z.opp_involutive; reflexivity.
Qed.

(** A quotient that lies between two neighbouring integers. *)
Lemma quot_between m r k :
  0 < r →
  (0 ≤ k → k * r ≤ m < (k + 1) * r → m `quot` r = k) ∧
  (k ≤ 0 → (k - 1) * r < m ≤ k * r → m `quot` r = k).
Proof.
  intros Hr. split.
  - intros Hk Hm. rewrite Z.quot_div_nonneg by nia.
    symmetry. apply (Z.div_unique m r k (m - k * r)); nia.
  - intros Hk Hm.
    assert ((- m) `quot` r = - k) as H.
    { rewrite Z.quot_div_nonneg by nia.
      symmetry. apply (Z.div_unique (- m) r (- k) (- m + k * r)); nia. }
    rewrite Z.quot_opp_l in H by lia. lia.
Qed.

(** Below [2^31] seconds the floats lose nothing: the seconds left are
    the exact difference, in microseconds, cut to whole seconds.  The
    two roundings move the difference by at most [2^-23 + 2^-22]
    seconds, less than the microsecond that separates it from a whole
    number of seconds, and a difference that is a whole number of
    seconds is computed exactly. *)
Lemma int_seconds_left_exact P td :
  float_exact P td →
  int_seconds_left P td = (timedelta_seconds P - td) `quot` 1000000.
Proof.
  unfold float_exact, timedelta_seconds. intros [HP Htd].
  unfold int_seconds_left, total_seconds, float_of_int.
  destruct (nearest_double_small td 1000000 31) as (jt & mt & -> & Hjt & Ht & Hte);
    [lia | lia | lia |].
  destruct (nearest_double_small P 1 31) as (jp & mp & -> & Hjp & _ & Hpe);
    [lia | lia | lia |].
  rewrite (Hpe P) by lia. clear Hpe mp.
  rewrite float_sub_small by lia.
  set (j := Z.max jp jt).
  replace (P * 2 ^ jp * 2 ^ (j - jp)) with (P * 2 ^ j).
  2:{ rewrite <- Z.mul_assoc, <- Z.pow_add_r by lia. f_equal. f_equal. lia. }
  assert (2 ^ j = 2 ^ jt * 2 ^ (j - jt)) as HB.
  { rewrite <- Z.pow_add_r by lia. f_equal. lia. }
  assert (0 < 2 ^ jt) as HA by (apply Z.pow_pos_nonneg; lia).
  assert (0 < 2 ^ (j - jt)) as HC by (apply Z.pow_pos_nonneg; lia).
  change (2 ^ (54 - 31)) with 8388608 in Ht.
  set (A := 2 ^ jt) in *. set (C := 2 ^ (j - jt)) in *. set (B := 2 ^ j) in *.
  assert (0 < B) as HBpos by nia.
  (* the size of the operands of the subtraction *)
  assert (- (2 ^ 31 * A) < mt < 2 ^ 31 * A) as Hmt.
  { change (2 ^ 31) with 2147483648 in *. nia. }
  destruct (nearest_double_small (P * B - mt * C) B 32) as (jr & mr & -> & Hjr & Hr & Hre);
    [lia | lia | change (2 ^ 31) with 2147483648 in *; change (2 ^ 32) with 4294967296; nia |].
  rewrite int_of_float_small by lia.
  assert (0 < 2 ^ jr) as HR by (apply Z.pow_pos_nonneg; lia).
  change (2 ^ (54 - 32)) with 4194304 in Hr.
  set (R := 2 ^ jr) in *.
  set (N := P * 1000000 - td).
  destruct (Z.eq_dec (N `mod` 1000000) 0) as [Hdiv | Hndiv].
  - (* a whole number of seconds: every step is exact *)
    apply Z.mod_divide in Hdiv; [| lia]. destruct Hdiv as [k Hk].
    rewrite Hk, Z.quot_mul by lia.
    rewrite (Hte (P - k)) in * by lia.
    rewrite (Hre k) by (subst B; nia).
    apply Z.quot_mul. lia.
  - assert (0 < R * C) as HRC by nia.
    set (X := mt * 1000000 - td * A) in *.
    set (Y := mr * B - (P * B - mt * C) * R) in *.
    assert (mr * 1000000 * B = R * (B * N - C * X) + Y * 1000000) as Hmr.
    { subst X Y N. rewrite HB. ring. }
    assert (- (R * 1000000 * B) ≤ R * C * X * 8388608 ≤ R * 1000000 * B) as HX.
    { rewrite HB. nia. }
    assert (B * (R * (8388608 * N - 3000000)) ≤ 8388608 * (mr * 1000000) * B
            ≤ B * (R * (8388608 * N + 3000000))) as Hboth by nia.
    assert (R * (8388608 * N - 3000000) ≤ 8388608 * (mr * 1000000)
            ≤ R * (8388608 * N + 3000000)) as Hbounds.
    { split; apply (Z.mul_le_mono_pos_l _ _ B); lia. }
    clear Hboth Hmr HX Hr Ht Hre Hte.
    pose proof (Z.quot_rem' N 1000000) as Hqr.
    assert (Z.rem N 1000000 ≠ 0) as Hrem.
    { intros H0. apply Hndiv. apply Z.mod_divide; [lia |].
      apply Z.rem_divide; [lia | exact H0]. }
    destruct (Z.lt_ge_cases N 0) as [Hneg | Hpos].
    + pose proof (Z.rem_bound_pos_neg N 1000000 ltac:(lia) ltac:(lia)) as Hb.
      assert (N `quot` 1000000 ≤ 0) as Hk.
      { apply Z.quot_le_upper_bound; lia. }
      apply (proj2 (quot_between mr R (N `quot` 1000000) HR)); [exact Hk |].
      set (k := N `quot` 1000000) in *. split; nia.
    + pose proof (Z.rem_bound_pos_pos N 1000000 ltac:(lia) ltac:(lia)) as Hb.
      assert (0 ≤ N `quot` 1000000) as Hk by (apply Z.quot_pos; lia).
      apply (proj1 (quot_between mr R (N `quot` 1000000) HR)); [exact Hk |].
      set (k := N `quot` 1000000) in *. split; nia.
Qed.

Lemma int_seconds_left_trunc P td :
  float_exact P td →
  td < timedelta_seconds P →
  timedelta_seconds (int_seconds_left P td) ≤ timedelta_seconds P - td
    < timedelta_seconds (int_seconds_left P td + 1).
Proof.
  intros Hexact Hlt. rewrite (int_seconds_left_exact P td Hexact).
  unfold timedelta_seconds in *.
  rewrite Z.quot_div_nonneg by lia.
  pose proof (Z.mul_div_le (P * 1000000 - td) 1000000).
  pose proof (Z.mul_succ_div_gt (P * 1000000 - td) 1000000).
  lia.
Qed.

Lemma int_seconds_left_mono P td1 td2 :
  float_exact P td1 → float_exact P td2 →
  td1 ≤ td2 → int_seconds_left P td2 ≤ int_seconds_left P td1.
Proof.
  intros H1 H2 Hle. rewrite !int_seconds_left_exact by done.
  apply Z.quot_le_mono; lia.
Qed.

Lemma int_seconds_left_whole P k :
  float_exact P (timedelta_seconds k) →
  int_seconds_left P (timedelta_seconds k) = P - k.
Proof.
  intros Hexact. rewrite int_seconds_left_exact by done.
  unfold timedelta_seconds.
  replace (P * 1000000 - k * 1000000) with ((P - k) * 1000000) by lia.
  apply Z.quot_mul. lia.
Qed.

(** *** The runs of the callback, case by case *)

(** The query fails: two lines are printed, nothing else happens. *)
Lemma run_query_failed P ctx w :
  store_failure (outcome (next_hop (network w))) = true →
  ∃ reason,
    check_cool_down P ctx w =
      (Return Allow,
       mkWorld (time_of_check w) (store w) (tail (network w))
               (sent w ++ [GET (agent_name ctx)])
               (stdout w ++ [line_before (agent_name ctx); line_unreachable reason])).
Proof.
  unfold time_of_check, next_hop.
  destruct (default _ _) as [d [| reason | reason | [c b]]] eqn:Hhop;
    cbn [outcome store_failure took status_code body]; try done; intros Hf.
  - exists reason. run_gate. rewrite Hhop. run_gate. by rewrite <- app_assoc.
  - exists reason. run_gate. rewrite Hhop. run_gate. by rewrite <- app_assoc.
  - run_gate. rewrite Hhop. run_gate.
    destruct ((400 <=? c) && (c <? 600)) eqn:Hc; run_gate.
    + eexists. by rewrite <- app_assoc.
    + cbn in Hf. apply bool_decide_eq_true in Hf. subst b. run_gate.
      eexists. by rewrite <- app_assoc.
Qed.

(** The service answers with a fresh record: the agent is blocked. *)
Lemma run_denied P ctx w last :
  outcome (next_hop (network w)) = Served →
  store w !! agent_name ctx = Some (Aware last) →
  time_of_check w - last < timedelta_seconds P →
  check_cool_down P ctx w =
    (Return (Deny (agent_name ctx) (int_seconds_left P (time_of_check w - last))),
     mkWorld (time_of_check w) (store w) (tail (network w))
             (sent w ++ [GET (agent_name ctx)])
             (stdout w ++ [line_before (agent_name ctx); line_active (agent_name ctx)])).
Proof.
  unfold time_of_check, next_hop. intros Hs Hr Hlt.
  run_gate. rewrite Hs. run_gate. rewrite Hr. run_gate.
  apply Z.ltb_lt in Hlt. rewrite Hlt. run_gate. by rewrite <- app_assoc.
Qed.

(** The service answers with no record or an old one: the time is
    posted and the agent runs, whatever becomes of the post. *)
Lemma run_admitted P ctx w :
  outcome (next_hop (network w)) = Served →
  lets_through P (time_of_check w) (store w !! agent_name ctx) →
  let now := time_of_check w in
  let post := next_hop (tail (network w)) in
  check_cool_down P ctx w =
    (Return Allow,
     mkWorld (now + Z.of_N (took post))
             (store_after_write (agent_name ctx) now (outcome post) (store w))
             (tail (tail (network w)))
             (sent w ++ [GET (agent_name ctx); POST (agent_name ctx) now])
             (stdout w ++ [line_before (agent_name ctx); line_available (agent_name ctx)]
                ++ lines_of_write (outcome post) ++ [line_complete (agent_name ctx)])).
Proof.
  unfold time_of_check, next_hop. intros Hs Hr. cbn zeta.
  run_gate. rewrite Hs. run_gate.
  destruct Hr as [-> | (last & -> & Hle)]; run_gate.
  - destruct (default _ (head (tail (network w)))) as [d2 [| r | r | [c b]]]; run_gate;
      rewrite <- ?app_assoc; reflexivity.
  - apply Z.ltb_ge in Hle. rewrite Hle. run_gate.
    destruct (default _ (head (tail (network w)))) as [d2 [| r | r | [c b]]]; run_gate;
      rewrite <- ?app_assoc; reflexivity.
Qed.

(** The service answers with a record the code cannot read as an aware
    time: the exception leaves the callback. *)
Lemma run_unreadable P ctx w s e :
  outcome (next_hop (network w)) = Served →
  store w !! agent_name ctx = Some s →
  unreadable_error s = Some e →
  check_cool_down P ctx w =
    (Raise e,
     mkWorld (time_of_check w) (store w) (tail (network w))
             (sent w ++ [GET (agent_name ctx)])
             (stdout w ++ [line_before (agent_name ctx)])).
Proof.
  unfold time_of_check, next_hop. intros Hs Hr He.
  run_gate. rewrite Hs. run_gate. rewrite Hr.
  destruct s; inversion He; subst; by run_gate.
Qed.

(** A run that is served and lets the agent through has read no
    record, or an aware one at least a period old. *)
Lemma allowed_lets_through P ctx w :
  outcome (next_hop (network w)) = Served →
  (check_cool_down P ctx w).1 = Return Allow →
  lets_through P (time_of_check w) (store w !! agent_name ctx).
Proof.
  intros Hs Hallow.
  destruct (store w !! agent_name ctx) as [s|] eqn:Hr; [| by left].
  destruct (unreadable_error s) as [e|] eqn:He.
  - by rewrite (run_unreadable P ctx w s e Hs Hr He) in Hallow.
  - destruct s as [last| | |]; try done.
    destruct (Z.lt_ge_cases (time_of_check w - last) (timedelta_seconds P)) as [Hlt|Hge].
    + by rewrite (run_denied P ctx w last Hs Hr Hlt) in Hallow.
    + right. by exists last.
Qed.

(** *** The decision *)

(** C1, as the code has it.  When the cooldown service answers: no
    record for the name gives Allow; a record at least
    [COOLDOWN_PERIOD_SECONDS] old gives Allow; a younger record gives Deny,
    whose number of seconds is [int(P - elapsed seconds)] as the floats
    of the code compute it.  For a period and an elapsed time below
    [2^31] seconds in magnitude that number is the period minus the
    elapsed time cut to whole seconds: at most one second below
    [P - elapsed], never growing as the elapsed time grows, and exactly
    [P - elapsed] when the elapsed time is a whole number of seconds. *)
Theorem check_cool_down_decision P ctx w :
  outcome (next_hop (network w)) = Served →
  let name := agent_name ctx in
  let decision := (check_cool_down P ctx w).1 in
  (store w !! name = None → decision = Return Allow) ∧
  (∀ last, store w !! name = Some (Aware last) →
     let elapsed := time_of_check w - last in
     (timedelta_seconds P ≤ elapsed → decision = Return Allow) ∧
     (elapsed < timedelta_seconds P →
        let retry_after_seconds := int_seconds_left P elapsed in
        decision = Return (Deny name retry_after_seconds) ∧
        (float_exact P elapsed →
           timedelta_seconds retry_after_seconds ≤ timedelta_seconds P - elapsed
             < timedelta_seconds (retry_after_seconds + 1)))) ∧
  (∀ elapsed elapsed',
     float_exact P elapsed → float_exact P elapsed' → elapsed ≤ elapsed' →
     int_seconds_left P elapsed' ≤ int_seconds_left P elapsed) ∧
  (∀ k, float_exact P (timedelta_seconds k) →
     int_seconds_left P (timedelta_seconds k) = P - k).
Proof.
  intros Hs name decision. subst name decision.
  split; [| split; [| split]].
  - intros Hr. rewrite run_admitted; [done | done |]. rewrite Hr. by left.
  - intros last Hr elapsed. subst elapsed. split.
    + intros Hge. rewrite run_admitted; [done | done |]. right. by exists last.
    + intros Hlt retry. subst retry. split.
      * by rewrite (run_denied P ctx w last).
      * intros Hexact. by apply int_seconds_left_trunc.
  - intros elapsed elapsed'. apply int_seconds_left_mono.
  - apply int_seconds_left_whole.
Qed.

Lemma check_cool_down_decision_witness :
  let w := mkWorld 1700000030000000 {["first_agent" := Aware 1700000000000000]} [] [] [] in
  outcome (next_hop (network w)) = Served ∧
  (check_cool_down COOLDOWN_PERIOD_SECONDS (mkCallbackContext "first_agent") w).1
    = Return (Deny "first_agent" 30).
Proof.
  intros w. split; [reflexivity |].
  destruct (check_cool_down_decision COOLDOWN_PERIOD_SECONDS
              (mkCallbackContext "first_agent") w eq_refl)
    as (_ & Hrecord & _).
  destruct (Hrecord 1700000000000000 eq_refl) as [_ Hdeny].
  destruct (Hdeny eq_refl) as [Hdecision _]. exact Hdecision.
Defined.

(** C1 as stated fails: half a second after the record was written,
    with a period of 60 seconds, the message says 59 seconds, and no
    whole number of seconds equals 60 - 0.5. *)
Lemma retry_after_not_exact :
  let w := mkWorld 500000 {["first_agent" := Aware 0]} [] [] [] in
  let decision :=
    (check_cool_down COOLDOWN_PERIOD_SECONDS (mkCallbackContext "first_agent") w).1 in
  outcome (next_hop (network w)) = Served ∧
  store w !! "first_agent" = Some (Aware 0) ∧
  decision = Return (Deny "first_agent" 59) ∧
  ¬ ∃ retry_after_seconds,
      decision = Return (Deny "first_agent" retry_after_seconds) ∧
      timedelta_seconds retry_after_seconds
        = timedelta_seconds COOLDOWN_PERIOD_SECONDS - (time_of_check w - 0).
Proof.
  intros w decision.
  split; [reflexivity |]. split; [reflexivity |]. split; [reflexivity |].
  intros (r & _ & Heq).
  change (time_of_check w - 0) with 500000 in Heq.
  unfold timedelta_seconds in Heq. lia.
Qed.

(** C2.  When the query to the cooldown service fails (the service is
    unreachable, the request times out, the answer has an error status
    or is not JSON), the callback returns Allow, whatever the records of
    the service, the name and the period. *)
Theorem fail_open P ctx w :
  store_failure (outcome (next_hop (network w))) = true →
  (check_cool_down P ctx w).1 = Return Allow.
Proof.
  intros Hf. by destruct (run_query_failed P ctx w Hf) as [reason ->].
Qed.

Lemma fail_open_witness :
  let w := mkWorld 1700000030000000 {["first_agent" := Aware 1700000000000000]}
             [mkHop 3000000 (TimedOut "Read timed out.")] [] [] in
  store_failure (outcome (next_hop (network w))) = true ∧
  (check_cool_down COOLDOWN_PERIOD_SECONDS (mkCallbackContext "first_agent") w).1 = Return Allow.
Proof.
  intros w. split; [reflexivity |].
  apply (fail_open COOLDOWN_PERIOD_SECONDS (mkCallbackContext "first_agent") w). reflexivity.
Defined.

(** X1.  Two checks of one name: when the first is let through and its post
    is served, a second one that is served less than a period later is
    blocked, for the time that is left. *)
Lemma second_check_denied P ctx w w2 :
  outcome (next_hop (network w)) = Served →
  lets_through P (time_of_check w) (store w !! agent_name ctx) →
  outcome (next_hop (tail (network w))) = Served →
  store w2 = store (check_cool_down P ctx w).2 →
  outcome (next_hop (network w2)) = Served →
  time_of_check w2 - time_of_check w < timedelta_seconds P →
  (check_cool_down P ctx w).1 = Return Allow ∧
  (check_cool_down P ctx w2).1
    = Return (Deny (agent_name ctx)
                (int_seconds_left P (time_of_check w2 - time_of_check w))).
Proof.
  intros Hs Hthrough Hpost Hstore Hs2 Hlt.
  rewrite (run_admitted P ctx w Hs Hthrough) in *. cbn [fst snd store] in *.
  split; [done |].
  rewrite Hpost in Hstore. cbn [store_after_write] in Hstore.
  rewrite (run_denied P ctx w2 (time_of_check w)); [done | done | | done].
  rewrite Hstore. apply lookup_insert_eq.
Qed.

(** *** What escapes *)

(** C4 fails on the code.  When the service answers with a ["time"] the
    code cannot read as an aware time (not ISO-8601, not a string, or
    without UTC offset), [datetime.fromisoformat] or the subtraction
    raises outside of any [try], and the exception, which is no
    [RequestException], leaves [check_cool_down]: the call resolves to
    no decision. *)
Theorem unreadable_time_escapes P ctx w s e :
  outcome (next_hop (network w)) = Served →
  store w !! agent_name ctx = Some s →
  unreadable_error s = Some e →
  (check_cool_down P ctx w).1 = Raise e ∧
  isinstance e RequestException = false ∧
  (∀ decision, (check_cool_down P ctx w).1 ≠ Return decision).
Proof.
  intros Hs Hr He. rewrite (run_unreadable P ctx w s e Hs Hr He).
  split; [done |]. split; [| done].
  destruct s; inversion He; reflexivity.
Qed.

Lemma unreadable_time_escapes_witness :
  let w := mkWorld 1700000030000000 {["first_agent" := NotIso]} [] [] [] in
  (check_cool_down COOLDOWN_PERIOD_SECONDS (mkCallbackContext "first_agent") w).1
    = Raise (mkExc ValueError "Invalid isoformat string").
Proof.
  intros w.
  apply (unreadable_time_escapes COOLDOWN_PERIOD_SECONDS
           (mkCallbackContext "first_agent") w NotIso);
    reflexivity.
Defined.

(** X2.  The same for an answer that is JSON but no object, such as a list:
    [data.get] raises an [AttributeError]. *)
Lemma not_an_object_escapes P ctx w d c :
  next_hop (network w) = mkHop d (Intercepted (mkResponse c NotObject)) →
  (400 <=? c) && (c <? 600) = false →
  ∃ e, (check_cool_down P ctx w).1 = Raise e ∧ exc_class e = AttributeError.
Proof.
  unfold next_hop. intros Hhop Hc. run_gate. rewrite Hhop. run_gate.
  rewrite Hc. run_gate. by eexists.
Qed.

(** *** The write *)

(** What holds of the write.  When the service answers the query and
    the callback decides
    Allow, it has posted the name with the time it read after the query;
    a post that is served leaves that time as the record of the name; a
    post that fails (refused or timed out) leaves the records as they
    were and prints the error line; and whatever becomes of the post,
    the decision is Allow. *)
Theorem admitted_posts_time P ctx w :
  outcome (next_hop (network w)) = Served →
  (check_cool_down P ctx w).1 = Return Allow →
  let name := agent_name ctx in
  let now := time_of_check w in
  let w' := (check_cool_down P ctx w).2 in
  let post := outcome (next_hop (tail (network w))) in
  sent w' = sent w ++ [GET name; POST name now] ∧
  (post = Served → store w' = <[name := Aware now]> (store w)) ∧
  (∀ reason, post = Refused reason ∨ post = TimedOut reason →
     store w' = store w ∧ line_not_updated reason ∈ stdout w') ∧
  (∀ net, next_hop net = next_hop (network w) →
     (check_cool_down P ctx (with_network net w)).1 = Return Allow).
Proof.
  intros Hs Hallow name now w' post. subst name now w' post.
  pose proof (allowed_lets_through P ctx w Hs Hallow) as Hthrough.
  rewrite (run_admitted P ctx w Hs Hthrough). cbn [fst snd sent store stdout].
  split; [done |]. split; [by intros -> |]. split.
  - intros reason [-> | ->]; (split; [done |]); cbn [lines_of_write];
      rewrite !elem_of_app, !elem_of_cons; tauto.
  - intros net Hnet. rewrite run_admitted; [done | |].
    + cbn [with_network network]. by rewrite Hnet.
    + unfold time_of_check in *. cbn [with_network network store clock].
      by rewrite Hnet.
Qed.

Lemma admitted_posts_time_witness :
  let w := mkWorld 1700000090000000 {["first_agent" := Aware 1700000000000000]}
             [mkHop 20000 Served; mkHop 5000000 (TimedOut "Read timed out.")] [] [] in
  let w' := (check_cool_down COOLDOWN_PERIOD_SECONDS (mkCallbackContext "first_agent") w).2 in
  sent w' = [GET "first_agent"; POST "first_agent" 1700000090020000] ∧
  store w' = store w ∧
  line_not_updated "Read timed out." ∈ stdout w'.
Proof.
  intros w w'.
  destruct (admitted_posts_time COOLDOWN_PERIOD_SECONDS
              (mkCallbackContext "first_agent") w eq_refl eq_refl)
    as (Hsent & _ & Hfail & _).
  split; [exact Hsent |].
  apply (Hfail "Read timed out."). right. reflexivity.
Defined.

(** C5 fails on the code.  A write that fails with an error status is
    not logged: when the post is answered with a status from 400 to 599,
    the callback returns Allow having printed the three lines of a
    success and no error line, and the record is what it was.  The
    answer to the post is dropped, where the query calls
    [raise_for_status]: the same answer to the query counts as a
    failure. *)
Theorem write_failure_not_logged P ctx w r :
  outcome (next_hop (network w)) = Served →
  lets_through P (time_of_check w) (store w !! agent_name ctx) →
  outcome (next_hop (tail (network w))) = Intercepted r →
  (400 <=? status_code r) && (status_code r <? 600) = true →
  let name := agent_name ctx in
  let w' := (check_cool_down P ctx w).2 in
  let lines := [line_before name; line_available name; line_complete name] in
  (check_cool_down P ctx w).1 = Return Allow ∧
  sent w' = sent w ++ [GET name; POST name (time_of_check w)] ∧
  store w' = store w ∧
  stdout w' = stdout w ++ lines ∧
  (∀ reason, line_not_updated reason ∉ lines) ∧
  store_failure (Intercepted r) = true.
Proof.
  intros Hs Hthrough Hpost Hstatus name w' lines. subst name w' lines.
  rewrite (run_admitted P ctx w Hs Hthrough). cbn [fst snd sent store stdout].
  rewrite Hpost. cbn [store_after_write lines_of_write app].
  split; [done |]. split; [done |]. split; [done |]. split; [done |]. split.
  - intros reason. rewrite !elem_of_cons, elem_of_nil.
    unfold line_not_updated, line_before, line_available, line_complete.
    intros [H | [H | [H | []]]]; discriminate H.
  - cbn [store_failure]. by rewrite Hstatus.
Qed.

Lemma write_failure_not_logged_witness :
  let w := mkWorld 1700000000000000 ∅
             [mkHop 1000 Served; mkHop 1000 (Intercepted (mkResponse 500 NotJson))] [] [] in
  let w' := (check_cool_down COOLDOWN_PERIOD_SECONDS (mkCallbackContext "first_agent") w).2 in
  (check_cool_down COOLDOWN_PERIOD_SECONDS (mkCallbackContext "first_agent") w).1
    = Return Allow ∧
  store w' = ∅ ∧
  stdout w' = [line_before "first_agent"; line_available "first_agent";
               line_complete "first_agent"].
Proof.
  intros w w'.
  destruct (write_failure_not_logged COOLDOWN_PERIOD_SECONDS
              (mkCallbackContext "first_agent") w (mkResponse 500 NotJson))
    as (Hallow & _ & Hstore & Hlines & _);
    [reflexivity | by left | reflexivity | reflexivity |].
  split; [exact Hallow |]. split; [exact Hstore | exact Hlines].
Defined.

(** *** The fail-open path *)

(** Every run sends the query, and at most the post after it; the post
    is sent only when the query did not fail. *)
Lemma sent_by_check_cool_down P ctx w :
  let name := agent_name ctx in
  let w' := (check_cool_down P ctx w).2 in
  sent w' = sent w ++ [GET name] ∨
  store_failure (outcome (next_hop (network w))) = false ∧
  sent w' = sent w ++ [GET name; POST name (time_of_check w)].
Proof.
  intros name w'. subst name w'.
  destruct (store_failure (outcome (next_hop (network w)))) eqn:Hf.
  { left. by destruct (run_query_failed P ctx w Hf) as [reason ->]. }
  unfold time_of_check, next_hop in *.
  destruct (default _ (head (network w))) as [d how] eqn:Hhop.
  destruct how as [| r | r | [c b]]; cbn in Hf; try done.
  - destruct (store w !! agent_name ctx) as [s|] eqn:Hr.
    + destruct (unreadable_error s) as [e|] eqn:He.
      * left. rewrite (run_unreadable P ctx w s e); [done | | done | done].
        unfold next_hop. by rewrite Hhop.
      * destruct s as [last| | |]; try done.
        destruct (Z.lt_ge_cases (time_of_check w - last) (timedelta_seconds P)).
        -- left. rewrite (run_denied P ctx w last); [done | | done | done].
           unfold next_hop. by rewrite Hhop.
        -- right. split; [done |].
           rewrite run_admitted; [| unfold next_hop; by rewrite Hhop |].
           ++ cbn [snd sent]. unfold time_of_check, next_hop. by rewrite Hhop.
           ++ right. exists last. by rewrite Hr.
    + right. split; [done |].
      rewrite run_admitted; [| unfold next_hop; by rewrite Hhop |].
      * cbn [snd sent]. unfold time_of_check, next_hop. by rewrite Hhop.
      * left. by rewrite Hr.
  - apply orb_false_iff in Hf as [Hc Hb]. apply bool_decide_eq_false in Hb.
    run_gate. rewrite Hhop. run_gate. rewrite Hc. run_gate.
    destruct b as [| | [[last| | |]|]]; try done; run_gate;
      try (left; reflexivity).
    + clear Hc. destruct (_ <? _); run_gate; [left; reflexivity |].
      right. split; [done |].
      destruct (default _ (head (tail (network w)))) as [d2 [| r | r | [c2 b2]]];
        run_gate; rewrite <- ?app_assoc; reflexivity.
    + right. split; [done |].
      destruct (default _ (head (tail (network w)))) as [d2 [| r | r | [c2 b2]]];
        run_gate; rewrite <- ?app_assoc; reflexivity.
Qed.

(** C9.  When the query to the cooldown service fails, the callback
    returns Allow having sent the query and nothing else: no post is
    made and the records of the service are as they were.  In every
    run, a post is sent only after a query that did not fail. *)
Theorem fail_open_writes_nothing P ctx w :
  store_failure (outcome (next_hop (network w))) = true →
  let name := agent_name ctx in
  let w' := (check_cool_down P ctx w).2 in
  (check_cool_down P ctx w).1 = Return Allow ∧
  store w' = store w ∧
  sent w' = sent w ++ [GET name] ∧
  (∀ P' ctx' w0 timestamp,
     POST (agent_name ctx') timestamp ∈ sent (check_cool_down P' ctx' w0).2 →
     POST (agent_name ctx') timestamp ∈ sent w0 ∨
     store_failure (outcome (next_hop (network w0))) = false).
Proof.
  intros Hf name w'. subst name w'.
  destruct (run_query_failed P ctx w Hf) as [reason ->]. cbn [fst snd store sent].
  split; [done |]. split; [done |]. split; [done |].
  intros P' ctx' w0 timestamp Hin.
  destruct (sent_by_check_cool_down P' ctx' w0) as [Heq | [Hok Heq]].
  - left. rewrite Heq in Hin. rewrite elem_of_app, list_elem_of_singleton in Hin.
    by destruct Hin.
  - by right.
Qed.

Lemma fail_open_writes_nothing_witness :
  let w := mkWorld 1700000030000000 {["first_agent" := Aware 1600000000000000]}
             [mkHop 1000 (Refused "Connection refused")] [] [] in
  let w' := (check_cool_down COOLDOWN_PERIOD_SECONDS (mkCallbackContext "first_agent") w).2 in
  store w' = store w ∧ sent w' = [GET "first_agent"].
Proof.
  intros w w'.
  destruct (fail_open_writes_nothing COOLDOWN_PERIOD_SECONDS
              (mkCallbackContext "first_agent") w eq_refl)
    as (_ & Hstore & Hsent & _).
  split; [exact Hstore | exact Hsent].
Defined.

(** *** More on the runs of the callback *)

Lemma second_check_denied_witness :
  let ctx := mkCallbackContext "first_agent" in
  let w := mkWorld 1700000000000000 ∅ [] [] [] in
  let w2 := mkWorld 1700000012500000 (store (check_cool_down COOLDOWN_PERIOD_SECONDS ctx w).2)
              [] [] [] in
  (check_cool_down COOLDOWN_PERIOD_SECONDS ctx w).1 = Return Allow ∧
  (check_cool_down COOLDOWN_PERIOD_SECONDS ctx w2).1 = Return (Deny "first_agent" 47).
Proof.
  intros ctx w w2.
  apply (second_check_denied COOLDOWN_PERIOD_SECONDS ctx w w2);
    [reflexivity | by left | reflexivity | reflexivity | reflexivity | reflexivity].
Defined.

Lemma not_an_object_escapes_witness :
  let w := mkWorld 1700000000000000 ∅
             [mkHop 1000 (Intercepted (mkResponse 200 NotObject))] [] [] in
  ∃ e, (check_cool_down COOLDOWN_PERIOD_SECONDS (mkCallbackContext "first_agent") w).1
         = Raise e ∧ exc_class e = AttributeError.
Proof.
  intros w.
  apply (not_an_object_escapes COOLDOWN_PERIOD_SECONDS (mkCallbackContext "first_agent")
           w 1000%N 200); reflexivity.
Defined.

(** X3.  A check that is blocked sends the query and nothing else, so the
    record keeps its time: being blocked does not make the wait longer,
    and a check of the same records a period after the record's time
    is let through. *)
Theorem denial_does_not_extend P ctx w w2 last :
  outcome (next_hop (network w)) = Served →
  store w !! agent_name ctx = Some (Aware last) →
  time_of_check w - last < timedelta_seconds P →
  store w2 = store (check_cool_down P ctx w).2 →
  outcome (next_hop (network w2)) = Served →
  timedelta_seconds P ≤ time_of_check w2 - last →
  sent (check_cool_down P ctx w).2 = sent w ++ [GET (agent_name ctx)] ∧
  store (check_cool_down P ctx w).2 = store w ∧
  (check_cool_down P ctx w2).1 = Return Allow.
Proof.
  intros Hs Hr Hlt Hstore Hs2 Hge.
  rewrite (run_denied P ctx w last Hs Hr Hlt) in *. cbn [snd sent store] in *.
  split; [done |]. split; [done |].
  rewrite run_admitted; [done | done |].
  right. exists last. by rewrite Hstore, Hr.
Qed.

Lemma denial_does_not_extend_witness :
  let ctx := mkCallbackContext "first_agent" in
  let w := mkWorld 1700000030000000 {["first_agent" := Aware 1700000000000000]} [] [] [] in
  let w2 := mkWorld 1700000060000000 (store (check_cool_down COOLDOWN_PERIOD_SECONDS ctx w).2)
              [] [] [] in
  store (check_cool_down COOLDOWN_PERIOD_SECONDS ctx w).2 = store w ∧
  (check_cool_down COOLDOWN_PERIOD_SECONDS ctx w2).1 = Return Allow.
Proof.
  intros ctx w w2.
  destruct (denial_does_not_extend COOLDOWN_PERIOD_SECONDS ctx w w2 1700000000000000)
    as (_ & Hstore & Hallow);
    [reflexivity | reflexivity | reflexivity | reflexivity | reflexivity
    | vm_compute; discriminate | ].
  split; [exact Hstore | exact Hallow].
Defined.

(** X4.  A record dated after the time of the check (the clocks of two hosts
    disagree), by less than [2^31] seconds, blocks the agent, and for at
    least a whole period: nothing in the code bounds the wait by the
    period. *)
Theorem future_record_blocks P ctx w last :
  0 < P →
  outcome (next_hop (network w)) = Served →
  store w !! agent_name ctx = Some (Aware last) →
  time_of_check w ≤ last →
  float_exact P (time_of_check w - last) →
  ∃ seconds_remaining,
    (check_cool_down P ctx w).1 = Return (Deny (agent_name ctx) seconds_remaining) ∧
    P ≤ seconds_remaining ∧
    timedelta_seconds seconds_remaining ≤ timedelta_seconds P + (last - time_of_check w).
Proof.
  intros HP Hs Hr Hle Hexact.
  assert (time_of_check w - last < timedelta_seconds P) as Hlt
    by (unfold timedelta_seconds; lia).
  rewrite (run_denied P ctx w last Hs Hr Hlt). eexists. split; [done |].
  pose proof (int_seconds_left_trunc P _ Hexact Hlt) as Htrunc.
  unfold timedelta_seconds in *. lia.
Qed.

Lemma future_record_blocks_witness :
  let w := mkWorld 1700000000000000 {["first_agent" := Aware 1700000600000000]} [] [] [] in
  ∃ seconds_remaining,
    (check_cool_down COOLDOWN_PERIOD_SECONDS (mkCallbackContext "first_agent") w).1
      = Return (Deny "first_agent" seconds_remaining) ∧
    COOLDOWN_PERIOD_SECONDS ≤ seconds_remaining.
Proof.
  intros w.
  destruct (future_record_blocks COOLDOWN_PERIOD_SECONDS (mkCallbackContext "first_agent")
              w 1700000600000000) as (seconds & Hdeny & Hlong & _);
    [reflexivity | reflexivity | reflexivity | vm_compute; discriminate
    | split; reflexivity | ].
  exists seconds. split; [exact Hdeny | exact Hlong].
Defined.

(** X5.  The answer to the post is never looked at: when something answers
    the post with a status of its own, an error status included, the
    decision is Allow, the records are as they were, and no error line
    is printed. *)
Theorem post_status_not_inspected P ctx w r :
  outcome (next_hop (network w)) = Served →
  lets_through P (time_of_check w) (store w !! agent_name ctx) →
  outcome (next_hop (tail (network w))) = Intercepted r →
  (check_cool_down P ctx w).1 = Return Allow ∧
  store (check_cool_down P ctx w).2 = store w ∧
  stdout (check_cool_down P ctx w).2
    = stdout w ++ [line_before (agent_name ctx); line_available (agent_name ctx);
                   line_complete (agent_name ctx)].
Proof.
  intros Hs Hthrough Hpost.
  rewrite (run_admitted P ctx w Hs Hthrough). cbn [fst snd store stdout].
  by rewrite Hpost.
Qed.

Lemma post_status_not_inspected_witness :
  let w := mkWorld 1700000000000000 ∅
             [mkHop 1000 Served; mkHop 1000 (Intercepted (mkResponse 500 NotJson))] [] [] in
  (check_cool_down COOLDOWN_PERIOD_SECONDS (mkCallbackContext "first_agent") w).1
    = Return Allow ∧
  store (check_cool_down COOLDOWN_PERIOD_SECONDS (mkCallbackContext "first_agent") w).2 = ∅.
Proof.
  intros w.
  destruct (post_status_not_inspected COOLDOWN_PERIOD_SECONDS
              (mkCallbackContext "first_agent") w (mkResponse 500 NotJson))
    as (Hallow & Hstore & _); [reflexivity | by left | reflexivity |].
  split; [exact Hallow | exact Hstore].
Defined.

(** X6.  The agent is blocked only by a record it can read that is younger
    than the period: a served check that returns a message has found
    such a record, returns the message for the time left, and has
    posted nothing. *)
Theorem blocked_only_by_fresh_record P ctx w content :
  outcome (next_hop (network w)) = Served →
  (check_cool_down P ctx w).1 = Return (Some content) →
  ∃ last,
    store w !! agent_name ctx = Some (Aware last) ∧
    time_of_check w - last < timedelta_seconds P ∧
    Some content = Deny (agent_name ctx) (int_seconds_left P (time_of_check w - last)) ∧
    sent (check_cool_down P ctx w).2 = sent w ++ [GET (agent_name ctx)].
Proof.
  intros Hs Hblocked.
  destruct (store w !! agent_name ctx) as [s|] eqn:Hr.
  - destruct (unreadable_error s) as [e|] eqn:He.
    + by rewrite (run_unreadable P ctx w s e Hs Hr He) in Hblocked.
    + destruct s as [last| | |]; try done.
      destruct (Z.lt_ge_cases (time_of_check w - last) (timedelta_seconds P)) as [Hlt|Hge].
      * rewrite (run_denied P ctx w last Hs Hr Hlt) in *. cbn [fst snd sent] in *.
        exists last. injection Hblocked as <-. done.
      * rewrite run_admitted in Hblocked; [done | done |].
        right. exists last. by rewrite Hr.
  - rewrite run_admitted in Hblocked; [done | done |]. left. by rewrite Hr.
Qed.

Lemma blocked_only_by_fresh_record_witness :
  let w := mkWorld 1700000030000000 {["first_agent" := Aware 1700000000000000]} [] [] [] in
  ∃ last, store w !! "first_agent" = Some (Aware last) ∧
          time_of_check w - last < timedelta_seconds COOLDOWN_PERIOD_SECONDS.
Proof.
  intros w.
  destruct (blocked_only_by_fresh_record COOLDOWN_PERIOD_SECONDS
              (mkCallbackContext "first_agent") w
              (mkContent [mkPart (override_message "first_agent" 30)]))
    as (last & Hr & Hlt & _); [reflexivity | reflexivity |].
  exists last. split; [exact Hr | exact Hlt].
Defined.

(** Whatever the service, the network and the records do, a check
    touches no record but the one of its own name, and that one only by
    putting the time of the check in it. *)
Lemma store_by_check_cool_down P ctx w :
  store (check_cool_down P ctx w).2 = store w ∨
  store (check_cool_down P ctx w).2
    = <[agent_name ctx := Aware (time_of_check w)]> (store w).
Proof.
  destruct (store_failure (outcome (next_hop (network w)))) eqn:Hf.
  { left. by destruct (run_query_failed P ctx w Hf) as [reason ->]. }
  unfold time_of_check, next_hop in *.
  destruct (default _ (head (network w))) as [d how] eqn:Hhop.
  destruct how as [| r | r | [c b]]; cbn in Hf; try done.
  - assert (outcome (next_hop (network w)) = Served) as Hs
      by (unfold next_hop; by rewrite Hhop).
    assert (time_of_check w = clock w + Z.of_N d) as Htime
      by (unfold time_of_check, next_hop; by rewrite Hhop).
    cbn [took]. rewrite <- Htime.
    destruct (store w !! agent_name ctx) as [s|] eqn:Hr.
    + destruct (unreadable_error s) as [e|] eqn:He.
      * left. by rewrite (run_unreadable P ctx w s e).
      * destruct s as [last| | |]; try done.
        destruct (Z.lt_ge_cases (time_of_check w - last) (timedelta_seconds P)).
        -- left. by rewrite (run_denied P ctx w last).
        -- rewrite run_admitted; [| done | right; exists last; by rewrite Hr].
           cbn [snd store]. unfold store_after_write.
           destruct (outcome (next_hop (tail (network w)))); auto.
    + rewrite run_admitted; [| done | left; by rewrite Hr].
      cbn [snd store]. unfold store_after_write.
      destruct (outcome (next_hop (tail (network w)))); auto.
  - apply orb_false_iff in Hf as [Hc Hb]. apply bool_decide_eq_false in Hb.
    run_gate. rewrite Hhop. run_gate. rewrite Hc. run_gate.
    destruct b as [| | [[last| | |]|]]; try done; run_gate;
      try (left; reflexivity).
    + clear Hc. destruct (_ <? _); run_gate; [left; reflexivity |].
      destruct (default _ (head (tail (network w)))) as [d2 [| r | r | [c2 b2]]];
        run_gate; auto.
    + destruct (default _ (head (tail (network w)))) as [d2 [| r | r | [c2 b2]]];
        run_gate; auto.
Qed.

(** X7.  A check concerns its own name only: for any other name, the record
    is what it was, and no query and no post for it is sent. *)
Theorem touches_own_name_only P ctx w other :
  other ≠ agent_name ctx →
  let w' := (check_cool_down P ctx w).2 in
  store w' !! other = store w !! other ∧
  (GET other ∈ sent w' → GET other ∈ sent w) ∧
  (∀ timestamp, POST other timestamp ∈ sent w' → POST other timestamp ∈ sent w).
Proof.
  intros Hne w'. subst w'. split; [| split].
  - destruct (store_by_check_cool_down P ctx w) as [-> | ->]; [done |].
    by apply lookup_insert_ne.
  - destruct (sent_by_check_cool_down P ctx w) as [-> | [_ ->]];
      rewrite elem_of_app, ?elem_of_cons, elem_of_nil;
      intros [H | H]; try done; repeat destruct H as [H | H]; try done;
      injection H as ->; done.
  - intros timestamp.
    destruct (sent_by_check_cool_down P ctx w) as [-> | [_ ->]];
      rewrite elem_of_app, ?elem_of_cons, elem_of_nil;
      intros [H | H]; try done; repeat destruct H as [H | H]; try done;
      injection H as -> _; done.
Qed.

Lemma touches_own_name_only_witness :
  let w := mkWorld 1700000000000000 {["second_agent" := Aware 1699999990000000]} [] [] [] in
  store (check_cool_down COOLDOWN_PERIOD_SECONDS (mkCallbackContext "first_agent") w).2
    !! "second_agent" = Some (Aware 1699999990000000).
Proof.
  intros w.
  destruct (touches_own_name_only COOLDOWN_PERIOD_SECONDS
              (mkCallbackContext "first_agent") w "second_agent") as [Hstore _];
    [discriminate |].
  exact Hstore.
Defined.

End Agent1_runs.

(** ** The agents of agent/agent_1/agent.py *)

Section Agent1_tree.
Import Agent1 Agent1Tree.

(** C6 fails on the code.  [check_cool_down] is given to the root
    [LoopAgent] only: [first_agent] and [second_agent] are built without
    a [before_agent_callback], so nothing is asked before either runs,
    and the gate is asked once, for the name of the root.  With a fresh
    record for ["first_agent"] and none for the root, the gate of the
    root lets the run through, having sent a query and a post for the
    name of the root and none for ["first_agent"]; asked for
    ["first_agent"], as the comment on the callback says it is, the
    gate would have blocked it. *)
Theorem gate_on_the_root_only P w last :
  outcome (next_hop (network w)) = Served →
  store w !! "first_agent" = Some (Aware last) →
  time_of_check w - last < timedelta_seconds P →
  store w !! "your_agent_system_name" = None →
  gated (root_agent P) = ["your_agent_system_name"] ∧
  before_agent first_agent w = (Return Allow, w) ∧
  before_agent second_agent w = (Return Allow, w) ∧
  (before_agent (root_agent P) w).1 = Return Allow ∧
  sent (before_agent (root_agent P) w).2
    = sent w ++ [GET "your_agent_system_name";
                 POST "your_agent_system_name" (time_of_check w)] ∧
  ∃ content,
    (check_cool_down P (mkCallbackContext "first_agent") w).1 = Return (Some content).
Proof.
  intros Hs Hfirst Hfresh Hroot.
  split; [reflexivity |]. split; [reflexivity |]. split; [reflexivity |].
  cbn [before_agent root_agent before_agent_callback name].
  rewrite (run_admitted P (mkCallbackContext "your_agent_system_name") w Hs)
    by (left; exact Hroot).
  cbn [fst snd sent agent_name]. split; [done |]. split; [done |].
  rewrite (run_denied P (mkCallbackContext "first_agent") w last Hs Hfirst Hfresh).
  by eexists.
Qed.

Lemma gate_on_the_root_only_witness :
  let w := mkWorld 1700000010000000 {["first_agent" := Aware 1700000000000000]} [] [] [] in
  (before_agent (root_agent COOLDOWN_PERIOD_SECONDS) w).1 = Return Allow ∧
  before_agent first_agent w = (Return Allow, w) ∧
  ∃ content,
    (check_cool_down COOLDOWN_PERIOD_SECONDS (mkCallbackContext "first_agent") w).1
      = Return (Some content).
Proof.
  intros w.
  destruct (gate_on_the_root_only COOLDOWN_PERIOD_SECONDS w 1700000000000000)
    as (_ & Hfirst & _ & Hroot & _ & Hwould);
    [reflexivity | reflexivity | reflexivity | reflexivity |].
  split; [exact Hroot |]. split; [exact Hfirst | exact Hwould].
Defined.

End Agent1_tree.

(** ** The tool servers *)

Section McpServer_calls.
Import Json McpServer.

Ltac run_server :=
  cbv [call_tool print call try_except mbind M_bind bind mret M_ret ret raise];
  cbn [fst snd].

(** [json.dumps] on small values. *)
Example dumps_compact :
  dumps (VDict [("a", VList [VInt 1; VStr "x"; VList []]); ("b", VNone)]) None
    = Return ("{" +:+ dquote +:+ "a" +:+ dquote +:+ ": [1, " +:+ dquote +:+ "x" +:+ dquote
              +:+ ", []], " +:+ dquote +:+ "b" +:+ dquote +:+ ": null}").
Proof. reflexivity. Qed.

Example dumps_indented :
  dumps (VDict [("a", VList [VInt 1; VBool true])]) (Some 2%nat)
    = Return ("{" +:+ newline +:+ "  " +:+ dquote +:+ "a" +:+ dquote +:+ ": [" +:+ newline
              +:+ "    1," +:+ newline +:+ "    true" +:+ newline +:+ "  ]" +:+ newline +:+ "}").
Proof. reflexivity. Qed.

Example dumps_escapes :
  dumps (VStr ("tab" +:+ String "009"%char "quote" +:+ dquote +:+ String "233"%char "!")) None
    = Return (dquote +:+ "tab\tquote\" +:+ dquote +:+ "\u00e9!" +:+ dquote).
Proof. reflexivity. Qed.

Example dumps_unserialisable :
  dumps (VList [VInt 1; VObject "set"]) (Some 2%nat)
    = Raise (mkExc TypeError "Object of type set is not JSON serializable").
Proof. reflexivity. Qed.

(** Reading undoes escaping. *)
Lemma read_escape_char c rest :
  read_string (escape_char c +:+ rest) = cons_char c (read_string rest).
Proof. destruct c as [[] [] [] [] [] [] [] []]; reflexivity. Qed.

Lemma read_escape s tail :
  read_string (escape s +:+ dquote +:+ tail) = Some (s, tail).
Proof.
  induction s as [| c s IH]; [reflexivity |].
  cbn [escape]. by rewrite string_app_assoc, read_escape_char, IH.
Qed.

(** The client reads the message the server wrote. *)
Lemma read_error_text message : read_error (error_text message) = Some message.
Proof.
  unfold read_error, error_text, quote.
  change (strip_prefix _ _) with (Some ((escape message +:+ dquote) +:+ "}")).
  by rewrite string_app_assoc, read_escape.
Qed.

(** The text of a failure is the JSON object with the one key
    ["error"]. *)
Lemma dumps_error_dict message :
  dumps (error_dict message) None = Return (error_text message).
Proof. reflexivity. Qed.

Lemma contains_middle before needle after :
  contains needle (before +:+ needle +:+ after).
Proof. by exists before, after. Qed.

(** C3.  A call for a name that is not in the registry raises nothing:
    it returns one text content, the JSON object whose ["error"] is
    [Tool '<name>' not implemented.]; a client reads that message back
    from the text, and the message contains the name asked for and says
    that it is not implemented. *)
Theorem unknown_tool_is_data (available_tools : gmap string FunctionTool)
    name arguments out :
  available_tools !! name = None →
  let message := "Tool '" +:+ name +:+ "' not implemented." in
  call_tool available_tools name arguments out
    = (Return [mkTextContent "text" (error_text message)],
       out ++ [Received name arguments; NotFound name]) ∧
  read_error (error_text message) = Some message ∧
  contains name message ∧
  contains "not implemented" message.
Proof.
  intros Hnone message. subst message. split; [| split; [| split]].
  - run_server. rewrite Hnone. run_server. by rewrite <- app_assoc.
  - apply read_error_text.
  - apply contains_middle.
  - exists ("Tool '" +:+ name +:+ "' "), ".".
    by rewrite !string_app_assoc.
Qed.

Lemma unknown_tool_is_data_witness :
  call_tool example_tools "get_weather" {["city" := VStr "Oslo"]} []
    = (Return [mkTextContent "text" (error_text "Tool 'get_weather' not implemented.")],
       [Received "get_weather" {["city" := VStr "Oslo"]}; NotFound "get_weather"]).
Proof.
  apply (unknown_tool_is_data example_tools "get_weather" {["city" := VStr "Oslo"]} []).
  reflexivity.
Defined.

(** C8.  When the tool of a registered name raises an [Exception], the
    call raises nothing: it returns one text content, the JSON object
    whose ["error"] is [Failed to execute tool '<name>': <str(e)>]; a
    client reads that message back from the text, and the message
    carries the text of the exception. *)
Theorem tool_error_is_data (available_tools : gmap string FunctionTool)
    name tool_to_call arguments e out :
  available_tools !! name = Some tool_to_call →
  run_async tool_to_call arguments = Raise e →
  isinstance e Exception = true →
  let message := "Failed to execute tool '" +:+ name +:+ "': " +:+ exc_str e in
  call_tool available_tools name arguments out
    = (Return [mkTextContent "text" (error_text message)],
       out ++ [Received name arguments; ErrorExecuting name (exc_str e)]) ∧
  read_error (error_text message) = Some message ∧
  contains (exc_str e) message.
Proof.
  intros Htool Hraise Hexc message. subst message. split; [| split].
  - run_server. rewrite Htool. run_server. rewrite Hraise, Hexc.
    by rewrite <- app_assoc.
  - apply read_error_text.
  - exists ("Failed to execute tool '" +:+ name +:+ "': "), EmptyString.
    by rewrite string_app_nil_r, !string_app_assoc.
Qed.

Lemma tool_error_is_data_witness :
  let reason := "missing 1 required positional argument: 'parameter2'" in
  call_tool example_tools "your_second_function" {["parameter1" := VStr "hi"]} []
    = (Return [mkTextContent "text"
                 (error_text ("Failed to execute tool 'your_second_function': " +:+ reason))],
       [Received "your_second_function" {["parameter1" := VStr "hi"]};
        ErrorExecuting "your_second_function" reason]).
Proof.
  intros reason.
  apply (tool_error_is_data example_tools "your_second_function"
           (mkTool "your_second_function" (λ _, Raise (mkExc TypeError reason)))
           {["parameter1" := VStr "hi"]} (mkExc TypeError reason) []);
    reflexivity.
Defined.

(** The same when the tool returns a value [json.dumps] cannot
    serialise: the [TypeError] is raised inside the [try]. *)
Lemma unserialisable_result_is_data (available_tools : gmap string FunctionTool)
    name tool_to_call arguments adk_response e out :
  available_tools !! name = Some tool_to_call →
  run_async tool_to_call arguments = Return adk_response →
  dumps adk_response (Some 2%nat) = Raise e →
  isinstance e Exception = true →
  (call_tool available_tools name arguments out).1
    = Return [mkTextContent "text"
                (error_text ("Failed to execute tool '" +:+ name +:+ "': " +:+ exc_str e))].
Proof.
  intros Htool Hret Hdumps Hexc.
  run_server. rewrite Htool. run_server. rewrite Hret. run_server.
  rewrite Hdumps. by rewrite Hexc.
Qed.

(** What [except Exception] does not catch passes through: a
    [KeyboardInterrupt] is no [Exception]. *)
Lemma interrupt_passes (available_tools : gmap string FunctionTool)
    name tool_to_call arguments reason out :
  available_tools !! name = Some tool_to_call →
  run_async tool_to_call arguments = Raise (mkExc KeyboardInterrupt reason) →
  (call_tool available_tools name arguments out).1
    = Raise (mkExc KeyboardInterrupt reason).
Proof.
  intros Htool Hraise. run_server. rewrite Htool. run_server. by rewrite Hraise.
Qed.

End McpServer_calls.

(** ** The after-tool callback *)

Section Agent3_callback.
Import Json Agent3.

(** C10.  The callback returns the response it was given, as it was
    given; afterwards the state holds the name of the tool under
    ["last_action"], and every other key of the state holds what it
    held before. *)
Theorem save_last_action_frame tool args tool_response w :
  (save_last_action_callback tool args tool_response w).1
    = Return (Some tool_response) ∧
  state (save_last_action_callback tool args tool_response w).2 !! "last_action"
    = Some (VStr (name tool)) ∧
  ∀ key, key ≠ "last_action" →
    state (save_last_action_callback tool args tool_response w).2 !! key
      = state w !! key.
Proof.
  cbn. split; [done |]. split.
  - apply lookup_insert_eq.
  - intros key Hne. by apply lookup_insert_ne.
Qed.

Lemma save_last_action_frame_witness :
  let w := mkWorld {["turn" := VInt 3]} [] in
  let run := save_last_action_callback (mkTool "first_service_agent")
               {["request" := VStr "collect"]} {["result" := VStr "done"]} w in
  run.1 = Return (Some {["result" := VStr "done"]}) ∧
  state run.2 !! "last_action" = Some (VStr "first_service_agent") ∧
  state run.2 !! "turn" = Some (VInt 3).
Proof.
  intros w run.
  destruct (save_last_action_frame (mkTool "first_service_agent")
              {["request" := VStr "collect"]} {["result" := VStr "done"]} w)
    as (Hresult & Hlast & Hothers).
  split; [exact Hresult |]. split; [exact Hlast |].
  exact (Hothers "turn" ltac:(discriminate)).
Defined.

(** The state after the callback, in one equation. *)
Lemma save_last_action_state tool args tool_response w :
  state (save_last_action_callback tool args tool_response w).2
    = <["last_action" := VStr (name tool)]> (state w).
Proof. reflexivity. Qed.

End Agent3_callback.

(** ** More on the tool servers *)

Section McpServer_more.
Import Json McpServer McpListing.

Ltac run_call_tool :=
  cbv [call_tool McpServer.print McpServer.call try_except mbind M_bind bind mret M_ret
       ret raise];
  cbn [fst snd].

(** Induction on Python values, through lists and dicts. *)
Lemma PyVal_nested_ind (P : PyVal → Prop) :
  P VNone → (∀ b, P (VBool b)) → (∀ n, P (VInt n)) → (∀ s, P (VStr s)) →
  (∀ items, Forall P items → P (VList items)) →
  (∀ items, Forall (λ kv, P kv.2) items → P (VDict items)) →
  (∀ type_name, P (VObject type_name)) →
  ∀ v, P v.
Proof.
  intros HNone HBool HInt HStr HList HDict HObject.
  exact (fix go (v : PyVal) : P v :=
    match v with
    | VNone => HNone
    | VBool b => HBool b
    | VInt n => HInt n
    | VStr s => HStr s
    | VList items =>
        HList items
          ((fix all (l : list PyVal) : Forall P l :=
              match l with
              | [] => List.Forall_nil P
              | x :: l' => List.Forall_cons P x l' (go x) (all l')
              end) items)
    | VDict items =>
        HDict items
          ((fix all (l : list (string * PyVal)) : Forall (λ kv, P kv.2) l :=
              match l with
              | [] => List.Forall_nil _
              | kv :: l' => List.Forall_cons (λ kv, P kv.2) kv l' (go kv.2) (all l')
              end) items)
    | VObject type_name => HObject type_name
    end).
Qed.

Lemma encode_list indent level x items :
  encode indent level (VList (x :: items)) =
    match encode_all indent (S level) (x :: items) with
    | Raise e => Raise e
    | Return ts =>
        Return ("[" +:+ newline_indent indent (S level)
                +:+ String.concat (item_separator indent (S level)) ts
                +:+ newline_indent indent level +:+ "]")
    end.
Proof. reflexivity. Qed.

Lemma encode_dict indent level kx items :
  encode indent level (VDict (kx :: items)) =
    match encode_pairs indent (S level) (kx :: items) with
    | Raise e => Raise e
    | Return ts =>
        Return ("{" +:+ newline_indent indent (S level)
                +:+ String.concat (item_separator indent (S level)) ts
                +:+ newline_indent indent level +:+ "}")
    end.
Proof. reflexivity. Qed.

(** [json.dumps] returns a text exactly for the values without an
    object it cannot serialise, and raises nothing but a [TypeError]. *)
Lemma encode_serialisable indent v :
  ∀ level,
    (serialisable v = true → ∃ text, encode indent level v = Return text) ∧
    (serialisable v = false → ∃ e, encode indent level v = Raise e ∧
                                   exc_class e = TypeError).
Proof.
  induction v as [| b | n | s | items IH | items IH | type_name] using PyVal_nested_ind;
    intros level; try (split; [by eexists | done]).
  - destruct b; (split; [by eexists | done]).
  - destruct items as [| x items]; [split; [by eexists | done] |].
    rewrite encode_list. cbn [serialisable].
    assert ((forallb serialisable (x :: items) = true →
             ∃ ts, encode_all indent (S level) (x :: items) = Return ts) ∧
            (forallb serialisable (x :: items) = false →
             ∃ e, encode_all indent (S level) (x :: items) = Raise e ∧
                  exc_class e = TypeError))
      as [Hok Hbad].
    { clear -IH. induction IH as [| y l Hy _ IHl]; [split; [by eexists | done] |].
      cbn [forallb encode_all]. destruct (Hy (S level)) as [Hy1 Hy2].
      destruct (serialisable y).
      - destruct (Hy1 eq_refl) as [t ->]. cbn [andb]. destruct IHl as [IH1 IH2]. split.
        + intros Hall. destruct (IH1 Hall) as [ts ->]. by eexists.
        + intros Hall. destruct (IH2 Hall) as (e & -> & He). by eexists.
      - destruct (Hy2 eq_refl) as (e & -> & He). split; [done |]. by eexists. }
    split.
    + intros Hall. destruct (Hok Hall) as [ts ->]. by eexists.
    + intros Hall. destruct (Hbad Hall) as (e & -> & He). by eexists.
  - destruct items as [| kx items]; [split; [by eexists | done] |].
    rewrite encode_dict. cbn [serialisable].
    assert ((forallb (λ kv, serialisable kv.2) (kx :: items) = true →
             ∃ ts, encode_pairs indent (S level) (kx :: items) = Return ts) ∧
            (forallb (λ kv, serialisable kv.2) (kx :: items) = false →
             ∃ e, encode_pairs indent (S level) (kx :: items) = Raise e ∧
                  exc_class e = TypeError))
      as [Hok Hbad].
    { clear -IH. induction IH as [| [k' y] l Hy _ IHl]; [split; [by eexists | done] |].
      cbn [forallb encode_pairs snd]. cbn [snd] in Hy.
      destruct (Hy (S level)) as [Hy1 Hy2].
      destruct (serialisable y).
      - destruct (Hy1 eq_refl) as [t ->]. cbn [andb]. destruct IHl as [IH1 IH2]. split.
        + intros Hall. destruct (IH1 Hall) as [ts ->]. by eexists.
        + intros Hall. destruct (IH2 Hall) as (e & -> & He). by eexists.
      - destruct (Hy2 eq_refl) as (e & -> & He). split; [done |]. by eexists. }
    split.
    + intros Hall. destruct (Hok Hall) as [ts ->]. by eexists.
    + intros Hall. destruct (Hbad Hall) as (e & -> & He). by eexists.
  - split; [done |]. intros _. by eexists.
Qed.

(** [json.dumps] returns a text or raises an [Exception]. *)
Lemma dumps_cases v indent :
  (serialisable v = true ∧ ∃ text, dumps v indent = Return text) ∨
  (serialisable v = false ∧
   ∃ e, dumps v indent = Raise e ∧ isinstance e Exception = true).
Proof.
  unfold dumps. destruct (encode_serialisable indent v 0%nat) as [Hok Hbad].
  destruct (serialisable v).
  - left. split; [done |]. by apply Hok.
  - right. split; [done |]. destruct (Hbad eq_refl) as (e & He & Hc).
    exists e. split; [done |]. unfold isinstance. by rewrite Hc.
Qed.

(** X8.  Whatever the registry, the name and the arguments, [call_tool]
    returns one text content, or raises what the tool itself raised and
    [except Exception] does not catch; in that case only the first line
    was printed.  No [Exception] leaves [call_tool]. *)
Theorem call_tool_raises_no_exception (available_tools : gmap string FunctionTool)
    name arguments out :
  (∃ text, (call_tool available_tools name arguments out).1
             = Return [mkTextContent "text" text]) ∨
  (∃ tool_to_call e,
     available_tools !! name = Some tool_to_call ∧
     run_async tool_to_call arguments = Raise e ∧
     isinstance e Exception = false ∧
     call_tool available_tools name arguments out
       = (Raise e, out ++ [Received name arguments])).
Proof.
  run_call_tool. destruct (available_tools !! name) as [tool|] eqn:Htool; run_call_tool.
  - destruct (run_async tool arguments) as [v | e] eqn:Hrun.
    + destruct (dumps_cases v (Some 2%nat)) as [[_ [text Ht]] | [_ (e & He & Hexc)]].
      * left. rewrite Ht. by eexists.
      * left. rewrite He, Hexc. by eexists.
    + destruct (isinstance e Exception) eqn:Hexc.
      * left. by eexists.
      * right. by exists tool, e.
  - left. by eexists.
Qed.

(** X9.  A tool that returns a value [json.dumps] can serialise: the call
    returns that value as indented JSON, and prints the two lines of a
    success. *)
Theorem serialisable_result_returned (available_tools : gmap string FunctionTool)
    name tool_to_call arguments adk_response out :
  available_tools !! name = Some tool_to_call →
  run_async tool_to_call arguments = Return adk_response →
  serialisable adk_response = true →
  ∃ response_text,
    dumps adk_response (Some 2%nat) = Return response_text ∧
    call_tool available_tools name arguments out
      = (Return [mkTextContent "text" response_text],
         out ++ [Received name arguments; Executed name]).
Proof.
  intros Htool Hret Hser.
  destruct (dumps_cases adk_response (Some 2%nat)) as [[_ [text Ht]] | [Hno _]];
    [| congruence].
  exists text. split; [done |].
  run_call_tool. rewrite Htool. run_call_tool. rewrite Hret. run_call_tool.
  rewrite Ht. by rewrite <- app_assoc.
Qed.

Lemma serialisable_result_returned_witness :
  ∃ response_text,
    dumps (VStr "Success! Your function returned: 1") (Some 2%nat) = Return response_text ∧
    call_tool example_tools "your_first_function" {["parameter1" := VStr "hi"]} []
      = (Return [mkTextContent "text" response_text],
         [Received "your_first_function" {["parameter1" := VStr "hi"]};
          Executed "your_first_function"]).
Proof.
  apply (serialisable_result_returned example_tools "your_first_function"
           (mkTool "your_first_function"
              (λ _, Return (VStr "Success! Your function returned: 1")))
           {["parameter1" := VStr "hi"]} (VStr "Success! Your function returned: 1") []);
    reflexivity.
Defined.

(** X10.  A tool that returns a string, as the tools of mcp-servers/api do:
    the client reads that very string back from the text of the answer,
    whatever characters it holds. *)
Theorem string_result_round_trip (available_tools : gmap string FunctionTool)
    name tool_to_call arguments s out :
  available_tools !! name = Some tool_to_call →
  run_async tool_to_call arguments = Return (VStr s) →
  ∃ response_text,
    (call_tool available_tools name arguments out).1
      = Return [mkTextContent "text" response_text] ∧
    read_str response_text = Some s.
Proof.
  intros Htool Hret. exists (quote s). split.
  - run_call_tool. rewrite Htool. run_call_tool. by rewrite Hret.
  - change (read_str (quote s))
      with (match read_string (escape s +:+ dquote +:+ EmptyString) with
            | Some (s, EmptyString) => Some s
            | _ => None
            end).
    by rewrite read_escape.
Qed.

Lemma string_result_round_trip_witness :
  ∃ response_text,
    (call_tool example_tools "your_first_function" {["parameter1" := VStr "hi"]} []).1
      = Return [mkTextContent "text" response_text] ∧
    read_str response_text = Some "Success! Your function returned: 1".
Proof.
  apply (string_result_round_trip example_tools "your_first_function"
           (mkTool "your_first_function"
              (λ _, Return (VStr "Success! Your function returned: 1")))
           {["parameter1" := VStr "hi"]}); reflexivity.
Defined.

(** X11.  A tool that runs to its end and returns a value [json.dumps] cannot
    serialise: the server prints that the tool was executed
    successfully and then that executing it failed, and the client gets
    the failure as data. *)
Theorem unserialisable_result_reported (available_tools : gmap string FunctionTool)
    name tool_to_call arguments adk_response out :
  available_tools !! name = Some tool_to_call →
  run_async tool_to_call arguments = Return adk_response →
  serialisable adk_response = false →
  ∃ e,
    call_tool available_tools name arguments out
      = (Return [mkTextContent "text"
                   (error_text ("Failed to execute tool '" +:+ name +:+ "': " +:+ exc_str e))],
         out ++ [Received name arguments; Executed name; ErrorExecuting name (exc_str e)]).
Proof.
  intros Htool Hret Hser.
  destruct (dumps_cases adk_response (Some 2%nat)) as [[Hyes _] | [_ (e & He & Hexc)]];
    [congruence |].
  exists e.
  run_call_tool. rewrite Htool. run_call_tool. rewrite Hret. run_call_tool.
  rewrite He, Hexc. by rewrite <- !app_assoc.
Qed.

Lemma unserialisable_result_reported_witness :
  let tool := mkTool "list_tags" (λ _, Return (VDict [("tags", VObject "set")])) in
  ∃ e,
    call_tool (registry [tool]) "list_tags" ∅ []
      = (Return [mkTextContent "text"
                   (error_text ("Failed to execute tool 'list_tags': " +:+ exc_str e))],
         [Received "list_tags" ∅; Executed "list_tags";
          ErrorExecuting "list_tags" (exc_str e)]).
Proof.
  intros tool.
  apply (unserialisable_result_reported (registry [tool]) "list_tags" tool ∅
           (VDict [("tags", VObject "set")]) []); reflexivity.
Defined.

(** Escaping leaves printable ASCII only. *)
Lemma all_printable_app s t :
  all_printable (s +:+ t) = all_printable s && all_printable t.
Proof.
  induction s as [| c s IH]; [done |].
  change (String c s +:+ t) with (String c (s +:+ t)).
  cbn [all_printable]. by rewrite IH, andb_assoc.
Qed.

Lemma escape_char_printable c : all_printable (escape_char c) = true.
Proof. destruct c as [[] [] [] [] [] [] [] []]; reflexivity. Qed.

Lemma escape_printable s : all_printable (escape s) = true.
Proof.
  induction s as [| c s IH]; [done |].
  cbn [escape]. by rewrite all_printable_app, escape_char_printable, IH.
Qed.

Lemma error_text_printable message : all_printable (error_text message) = true.
Proof.
  unfold error_text, quote. by rewrite !all_printable_app, !escape_printable.
Qed.

(** X12.  The text of a failure is one line of printable ASCII, whatever the
    name asked for and whatever the text of the exception: new lines,
    quotes and characters outside of ASCII are escaped. *)
Theorem failure_text_printable (available_tools : gmap string FunctionTool)
    name arguments out :
  (available_tools !! name = None ∨
   ∃ tool_to_call e,
     available_tools !! name = Some tool_to_call ∧
     run_async tool_to_call arguments = Raise e ∧
     isinstance e Exception = true) →
  ∃ text,
    (call_tool available_tools name arguments out).1 = Return [mkTextContent "text" text] ∧
    all_printable text = true.
Proof.
  intros [Hnone | (tool & e & Htool & Hraise & Hexc)].
  - eexists. split.
    + run_call_tool. rewrite Hnone. run_call_tool. rewrite dumps_error_dict. reflexivity.
    + apply error_text_printable.
  - eexists. split.
    + run_call_tool. rewrite Htool. run_call_tool. rewrite Hraise, Hexc.
      rewrite dumps_error_dict. reflexivity.
    + apply error_text_printable.
Qed.

Lemma failure_text_printable_witness :
  let reason := "line one" +:+ newline +:+ "caf" +:+ String "233"%char EmptyString in
  let tool := mkTool "parse_number" (λ _, Raise (mkExc ValueError reason)) in
  ∃ text,
    (call_tool (registry [tool]) "parse_number" ∅ []).1
      = Return [mkTextContent "text" text] ∧
    all_printable text = true.
Proof.
  intros reason tool.
  apply (failure_text_printable (registry [tool]) "parse_number" ∅ []).
  right. exists tool, (mkExc ValueError reason). split; [reflexivity |].
  split; reflexivity.
Defined.

(** X13.  What [except Exception] does not catch leaves [call_tool] after the
    first line was printed: neither a success nor an error is printed,
    and the client gets no answer. *)
Theorem non_exception_escapes (available_tools : gmap string FunctionTool)
    name tool_to_call arguments e out :
  available_tools !! name = Some tool_to_call →
  run_async tool_to_call arguments = Raise e →
  isinstance e Exception = false →
  call_tool available_tools name arguments out
    = (Raise e, out ++ [Received name arguments]).
Proof.
  intros Htool Hraise Hexc.
  run_call_tool. rewrite Htool. run_call_tool. by rewrite Hraise, Hexc.
Qed.

Lemma non_exception_escapes_witness :
  let e := mkExc KeyboardInterrupt EmptyString in
  let tool := mkTool "wait_for_input" (λ _, Raise e) in
  call_tool (registry [tool]) "wait_for_input" ∅ []
    = (Raise e, [Received "wait_for_input" ∅]).
Proof.
  intros e tool.
  apply (non_exception_escapes (registry [tool]) "wait_for_input" tool ∅ e []);
    reflexivity.
Defined.

End McpServer_more.

(** ** The listing of the tool servers *)

Section McpServer_listing.
Import Json McpServer McpListing.

Variable Schema : Type.
Variable schema_name : Schema → string.
Variable adk_to_mcp_tool_type : FunctionTool → Outcome Schema.

(** The loop over tools that all convert: the schemas are appended in
    order, one line is printed for each. *)
Lemma advertise_all (f : FunctionTool → Schema) tools mcp_tools out :
  (∀ tool, tool ∈ tools → adk_to_mcp_tool_type tool = Return (f tool)) →
  advertise Schema schema_name adk_to_mcp_tool_type (registry_items tools) mcp_tools out
    = (Return (mcp_tools ++ (f <$> tools)),
       out ++ ((λ tool, Advertising (schema_name (f tool))) <$> tools)).
Proof.
  revert mcp_tools out. induction tools as [| tool tools IH]; intros mcp_tools out Hconv.
  - cbn. by rewrite !app_nil_r.
  - cbn [registry_items fmap list_fmap advertise].
    cbv [McpListing.call McpListing.print mbind M_bind bind mret M_ret ret].
    rewrite (Hconv tool) by apply list_elem_of_here.
    fold (registry_items tools).
    rewrite IH by (intros t Ht; apply Hconv; by apply list_elem_of_further).
    by rewrite <- !app_assoc.
Qed.

(** The loop stops at the first tool that does not convert. *)
Lemma advertise_fails (f : FunctionTool → Schema) before tool after e mcp_tools out :
  (∀ t, t ∈ before → adk_to_mcp_tool_type t = Return (f t)) →
  adk_to_mcp_tool_type tool = Raise e →
  advertise Schema schema_name adk_to_mcp_tool_type
      (registry_items (before ++ tool :: after)) mcp_tools out
    = (Raise e, out ++ ((λ t, Advertising (schema_name (f t))) <$> before)).
Proof.
  revert mcp_tools out. induction before as [| t before IH]; intros mcp_tools out Hconv Hraise.
  - cbn [app registry_items fmap list_fmap advertise].
    cbv [McpListing.call McpListing.print mbind M_bind bind mret M_ret ret].
    rewrite Hraise. by rewrite app_nil_r.
  - cbn [app registry_items fmap list_fmap advertise].
    cbv [McpListing.call McpListing.print mbind M_bind bind mret M_ret ret].
    rewrite (Hconv t) by apply list_elem_of_here.
    fold (registry_items (before ++ tool :: after)).
    rewrite IH by (try done; intros t' Ht'; apply Hconv; by apply list_elem_of_further).
    by rewrite <- !app_assoc.
Qed.

(** X14.  When every tool of the registry converts, [list_tools] returns one
    schema for each tool, in the order of the registry, having printed
    one line for each and then their number. *)
Theorem list_tools_lists_all (f : FunctionTool → Schema) tools out :
  (∀ tool, tool ∈ tools → adk_to_mcp_tool_type tool = Return (f tool)) →
  list_tools Schema schema_name adk_to_mcp_tool_type (registry_items tools) out
    = (Return (f <$> tools),
       out ++ ((λ tool, Advertising (schema_name (f tool))) <$> tools)
           ++ [Total (length tools)]).
Proof.
  intros Hconv. unfold list_tools.
  cbv [mbind M_bind bind]. rewrite (advertise_all f) by done.
  cbv [McpListing.print mret M_ret ret]. cbn [app].
  by rewrite length_fmap, <- app_assoc.
Qed.

(** X15.  When one tool of the registry does not convert, [list_tools] raises
    what the conversion raised, of whatever class: the client gets no
    list at all, also not the tools before it, whose lines were
    printed; the line with the total is not printed. *)
Theorem list_tools_all_or_nothing (f : FunctionTool → Schema) before tool after e out :
  (∀ t, t ∈ before → adk_to_mcp_tool_type t = Return (f t)) →
  adk_to_mcp_tool_type tool = Raise e →
  list_tools Schema schema_name adk_to_mcp_tool_type
      (registry_items (before ++ tool :: after)) out
    = (Raise e, out ++ ((λ t, Advertising (schema_name (f t))) <$> before)).
Proof.
  intros Hconv Hraise. unfold list_tools.
  cbv [mbind M_bind bind]. by rewrite (advertise_fails f before tool after e).
Qed.

(** X16.  The names [list_tools] advertises are the names [call_tool] finds
    in the registry, when the conversion keeps the name of a tool: a
    name that is advertised is one [call_tool] runs a tool for, and for
    any other name it answers that the tool is not implemented. *)
Theorem advertised_iff_callable (f : FunctionTool → Schema) tools listed out out' :
  NoDup (name <$> tools) →
  (∀ tool, tool ∈ tools → adk_to_mcp_tool_type tool = Return (f tool)) →
  (∀ tool, schema_name (f tool) = name tool) →
  (list_tools Schema schema_name adk_to_mcp_tool_type (registry_items tools) out).1
    = Return listed →
  ∀ asked arguments,
    (asked ∈ schema_name <$> listed →
       ∃ tool, tool ∈ tools ∧ name tool = asked ∧ registry tools !! asked = Some tool) ∧
    (asked ∉ schema_name <$> listed →
       call_tool (registry tools) asked arguments out'
         = (Return [mkTextContent "text"
                      (error_text ("Tool '" +:+ asked +:+ "' not implemented."))],
            out' ++ [Received asked arguments; NotFound asked])).
Proof.
  intros Hnodup Hconv Hname Hlisted asked arguments.
  unfold list_tools in Hlisted. cbv [mbind M_bind bind] in Hlisted.
  rewrite (advertise_all f) in Hlisted by done.
  cbv [McpListing.print mret M_ret ret] in Hlisted. cbn [fst app] in Hlisted.
  injection Hlisted as <-.
  assert (schema_name <$> (f <$> tools) = name <$> tools) as ->.
  { rewrite <- list_fmap_compose. apply list_fmap_ext. intros i tool _. apply Hname. }
  split.
  - intros Hin. apply list_elem_of_fmap in Hin as (tool & -> & Hin).
    exists tool. split; [done |]. split; [done |].
    unfold registry. apply elem_of_list_to_map_1.
    + by rewrite <- list_fmap_compose.
    + apply list_elem_of_fmap. by exists tool.
  - intros Hout.
    assert (registry tools !! asked = None) as Hnone.
    { unfold registry. apply not_elem_of_list_to_map_1.
      by rewrite <- list_fmap_compose. }
    cbv [call_tool McpServer.print McpServer.call try_except mbind M_bind bind mret M_ret
         ret raise].
    cbn [fst snd]. rewrite Hnone. by rewrite <- app_assoc.
Qed.

End McpServer_listing.

Section McpServer_listing_examples.
Import Json McpServer McpListing.

Lemma list_tools_lists_all_witness :
  list_tools string id (λ tool, Return (name tool))
      (registry_items [first_tool; second_tool]) []
    = (Return ["your_first_function"; "your_second_function"],
       [Advertising "your_first_function"; Advertising "your_second_function"; Total 2]).
Proof.
  apply (list_tools_lists_all string id (λ tool, Return (name tool)) name
           [first_tool; second_tool] []).
  intros tool _. reflexivity.
Defined.

Lemma list_tools_all_or_nothing_witness :
  let e := mkExc ValueError "Failed to parse the parameter" in
  list_tools string id
      (λ tool, if String.eqb (name tool) "your_second_function"
               then Raise e else Return (name tool))
      (registry_items [first_tool; second_tool]) []
    = (Raise e, [Advertising "your_first_function"]).
Proof.
  intros e.
  apply (list_tools_all_or_nothing string id
           (λ tool, if String.eqb (name tool) "your_second_function"
                    then Raise e else Return (name tool))
           name [first_tool] second_tool [] e []).
  - intros t Ht. apply list_elem_of_singleton in Ht. subst t. reflexivity.
  - reflexivity.
Defined.

Lemma advertised_iff_callable_witness :
  call_tool (registry [first_tool; second_tool]) "get_weather" ∅ []
    = (Return [mkTextContent "text" (error_text "Tool 'get_weather' not implemented.")],
       [Received "get_weather" ∅; NotFound "get_weather"]).
Proof.
  apply (advertised_iff_callable string id (λ tool, Return (name tool)) name
           [first_tool; second_tool] ["your_first_function"; "your_second_function"] [] []).
  - apply NoDup_cons. split; [| apply NoDup_singleton].
    rewrite list_elem_of_singleton. discriminate.
  - intros tool _. reflexivity.
  - intros tool. reflexivity.
  - reflexivity.
  - change ("get_weather" ∉ ["your_first_function"; "your_second_function"]).
    rewrite !elem_of_cons, elem_of_nil.
    intros [H | [H | []]]; discriminate H.
Defined.

End McpServer_listing_examples.

(** ** The cooldown plugin *)

Section Plugin_runs.
Import Json Plugin.

Ltac eval_isinstance' :=
  repeat match goal with
    | |- context [isinstance (mkExc ?c ?s) ?d] =>
        let b := eval vm_compute in (issubclass c d) in
        change (isinstance (mkExc c s) d) with b
    end.

Ltac run_plugin :=
  repeat progress
    (cbv [on_agent_request _extract_user_id _is_user_in_cooldown _record_user_action
          _get_remaining_cooldown_time _handle_cooldown_violation validate_configuration
          send response_json data_get datetime_now print try_except
          mbind M_bind bind mret M_ret ret raise next_exchange after_request];
     cbn [fst snd clock network sent stdout status_code body];
     eval_isinstance').

(** The check with a URL: one query is sent, nothing is raised, and
    the answer is true exactly after an exchange that says so. *)
Lemma run_is_user_in_cooldown url user_id w :
  url_set url = true →
  ∃ in_cooldown lines,
    _is_user_in_cooldown url user_id w
      = (Return in_cooldown, after_request (GET (endpoint url "check" user_id)) lines w) ∧
    truthy in_cooldown = says_in_cooldown (next_exchange w).
Proof.
  intros Hurl. run_plugin. rewrite Hurl.
  destruct (default _ (head (network w))) as [reason | reason | [c b]];
    run_plugin; cbn [says_in_cooldown status_code body].
  - by eexists _, [_].
  - by eexists _, [_].
  - destruct (c =? 200); run_plugin; cbn [andb].
    + destruct b as [| | d]; run_plugin.
      * by eexists _, [_].
      * by eexists _, [_].
      * eexists _, []. by rewrite app_nil_r.
    + eexists _, []. by rewrite app_nil_r.
Qed.

(** The record with a URL: one post is sent, with the time read before
    it, and nothing is raised. *)
Lemma run_record_user_action url user_id w :
  url_set url = true →
  ∃ lines,
    _record_user_action url user_id w
      = (Return (),
         after_request (POST (endpoint url "record" user_id) (clock w) "llm_request") lines w).
Proof.
  intros Hurl. run_plugin. rewrite Hurl.
  destruct (default _ (head (network w))) as [reason | reason | [c b]]; run_plugin.
  - by eexists [_].
  - by eexists [_].
  - destruct (c =? 200); run_plugin.
    + eexists []. by rewrite app_nil_r.
    + by eexists [_].
Qed.

(** The remaining time with a URL: one query is sent, nothing is
    raised. *)
Lemma run_get_remaining_cooldown_time url P user_id w :
  url_set url = true →
  ∃ lines,
    _get_remaining_cooldown_time url P user_id w
      = (Return (remaining_said P (next_exchange w)),
         after_request (GET (endpoint url "remaining" user_id)) lines w).
Proof.
  intros Hurl. run_plugin. rewrite Hurl.
  destruct (default _ (head (network w))) as [reason | reason | [c b]];
    run_plugin; cbn [remaining_said status_code body].
  - by eexists [_].
  - by eexists [_].
  - destruct (c =? 200); run_plugin.
    + destruct b as [| | d]; run_plugin.
      * by eexists [_].
      * by eexists [_].
      * eexists []. by rewrite app_nil_r.
    + eexists []. by rewrite app_nil_r.
Qed.

(** X17.  Without a URL ([API_SERVER_URL] not set, or empty) the plugin does
    nothing: every request goes on, nothing is sent and nothing is
    printed, and [validate_configuration] says so. *)
Theorem plugin_without_url {LlmRequest} url P (request : LlmRequest) w :
  url_set url = false →
  on_agent_request url P request w = (Return (Some request), w) ∧
  (validate_configuration url P w).1 = Return false.
Proof.
  intros Hurl. split.
  - run_plugin. rewrite Hurl. by run_plugin.
  - run_plugin. by rewrite Hurl.
Qed.

Lemma plugin_without_url_witness :
  let w := mkWorld 1700000000000000 [] [] [] in
  on_agent_request None 60 "prompt" w = (Return (Some "prompt"), w).
Proof.
  intros w. apply (plugin_without_url None 60 "prompt" w). reflexivity.
Defined.

(** X18.  With a URL the plugin raises nothing and blocks the request exactly
    when the service answers the check with status 200 and a true
    value under ['in_cooldown']; after any other exchange (no
    connection, no answer in time, another status, a body that is not a
    JSON object) the request goes on.  The period set in the module
    plays no part in the decision. *)
Theorem plugin_decision {LlmRequest} url P P' (request : LlmRequest) w :
  url_set url = true →
  (on_agent_request url P request w).1
    = Return (if says_in_cooldown (next_exchange w) then None else Some request) ∧
  (on_agent_request url P' request w).1 = (on_agent_request url P request w).1.
Proof.
  intros Hurl.
  assert (∀ Q, (on_agent_request url Q request w).1
               = Return (if says_in_cooldown (next_exchange w) then None else Some request))
    as Hany.
  { intros Q. unfold on_agent_request, _extract_user_id, _handle_cooldown_violation.
    change (String.eqb "default_user" EmptyString) with false. cbv iota.
    cbv [mbind M_bind bind].
    destruct (run_is_user_in_cooldown url "default_user" w Hurl)
      as (v & lines & -> & <-).
    destruct (truthy v).
    - destruct (run_get_remaining_cooldown_time url Q "default_user"
                  (after_request (GET (endpoint url "check" "default_user")) lines w) Hurl)
        as (lines2 & ->).
      reflexivity.
    - destruct (run_record_user_action url "default_user"
                  (after_request (GET (endpoint url "check" "default_user")) lines w) Hurl)
        as (lines2 & ->).
      reflexivity. }
  split; [apply Hany |]. by rewrite !Hany.
Qed.

Lemma plugin_decision_witness :
  let url := Some "http://localhost:8000" in
  let w := mkWorld 1700000000000000
             [Answered (mkResponse 200 (Dict {["in_cooldown" := VBool true]}))] [] [] in
  (on_agent_request url 60 "prompt" w).1 = Return None.
Proof.
  intros url w.
  destruct (plugin_decision url 60 60 "prompt" w eq_refl) as [Hdecision _].
  exact Hdecision.
Defined.

(** X19.  A request that is blocked is not recorded: the plugin sends the
    check and the query for the remaining time, both for the one user
    ["default_user"], and no post; the last line it prints gives the
    remaining time it was told, which is the whole period when the
    second query fails. *)
Theorem plugin_blocked {LlmRequest} url P (request : LlmRequest) w :
  url_set url = true →
  says_in_cooldown (next_exchange w) = true →
  let w' := (on_agent_request url P request w).2 in
  let second := default (Refused "Connection refused") (head (tail (network w))) in
  sent w' = sent w ++ [GET (endpoint url "check" "default_user");
                       GET (endpoint url "remaining" "default_user")] ∧
  last (stdout w') = Some (Violation "default_user" (remaining_said P second)).
Proof.
  intros Hurl Hsays. cbn zeta.
  unfold on_agent_request, _extract_user_id, _handle_cooldown_violation.
  change (String.eqb "default_user" EmptyString) with false. cbv iota.
  cbv [mbind M_bind bind].
  destruct (run_is_user_in_cooldown url "default_user" w Hurl)
    as (v & lines & -> & Htruthy).
  rewrite Htruthy, Hsays.
  destruct (run_get_remaining_cooldown_time url P "default_user"
              (after_request (GET (endpoint url "check" "default_user")) lines w) Hurl)
    as (lines2 & ->).
  cbv [print mret M_ret ret after_request next_exchange].
  cbn [fst snd clock network sent stdout].
  split.
  - by rewrite <- app_assoc.
  - by rewrite last_snoc.
Qed.

Lemma plugin_blocked_witness :
  let url := Some "http://localhost:8000" in
  let w := mkWorld 1700000000000000
             [Answered (mkResponse 200 (Dict {["in_cooldown" := VBool true]}));
              TimedOut "Read timed out."] [] [] in
  let w' := (on_agent_request url 60 "prompt" w).2 in
  sent w' = [GET "http://localhost:8000/check/default_user";
             GET "http://localhost:8000/remaining/default_user"] ∧
  last (stdout w') = Some (Violation "default_user" (VInt 60)).
Proof.
  intros url w w'.
  apply (plugin_blocked url 60 "prompt" w); reflexivity.
Defined.

(** X20.  A request that goes on is recorded, also when the check itself
    failed: the plugin sends the check and then the post, with the time
    of the clock and the action type ['llm_request'], both for the one
    user ["default_user"]. *)
Theorem plugin_passed {LlmRequest} url P (request : LlmRequest) w :
  url_set url = true →
  says_in_cooldown (next_exchange w) = false →
  (on_agent_request url P request w).1 = Return (Some request) ∧
  sent (on_agent_request url P request w).2
    = sent w ++ [GET (endpoint url "check" "default_user");
                 POST (endpoint url "record" "default_user") (clock w) "llm_request"].
Proof.
  intros Hurl Hsays.
  unfold on_agent_request, _extract_user_id, _handle_cooldown_violation.
  change (String.eqb "default_user" EmptyString) with false. cbv iota.
  cbv [mbind M_bind bind].
  destruct (run_is_user_in_cooldown url "default_user" w Hurl)
    as (v & lines & -> & Htruthy).
  rewrite Htruthy, Hsays.
  destruct (run_record_user_action url "default_user"
              (after_request (GET (endpoint url "check" "default_user")) lines w) Hurl)
    as (lines2 & ->).
  cbv [mret M_ret ret after_request]. cbn [fst snd clock network sent stdout].
  split; [done |]. by rewrite <- app_assoc.
Qed.

Lemma plugin_passed_witness :
  let url := Some "http://localhost:8000" in
  let w := mkWorld 1700000000000000 [Refused "Connection refused"] [] [] in
  sent (on_agent_request url 60 "prompt" w).2
    = [GET "http://localhost:8000/check/default_user";
       POST "http://localhost:8000/record/default_user" 1700000000000000 "llm_request"].
Proof.
  intros url w.
  destruct (plugin_passed url 60 "prompt" w eq_refl eq_refl) as [_ Hsent].
  exact Hsent.
Defined.

End Plugin_runs.

(** ** The start-up of the diagnose agent *)

Section Diagnose_runs.
Import Diagnose.

Variable LlmAgent : Type.
Variable bool_of_agent : LlmAgent → bool.
Variable creation : Template → nat → Result LlmAgent.

#[local] Abbreviation import_module := (import_module LlmAgent bool_of_agent creation).
#[local] Abbreviation get_agent := (get_agent LlmAgent).
#[local] Abbreviation is_system_ready := (is_system_ready LlmAgent).
#[local] Abbreviation fresh := (fresh LlmAgent).

Ltac run_startup :=
  cbv [Diagnose.import_module startup initialize get_agent_async log_line
       Diagnose.fresh Diagnose.get_agent Diagnose.is_system_ready];
  cbn [root_agent attempts log length app fst snd].

(** X21.  When the first template builds its agent, the second template
    builds none: its start-up finds the global set and only logs that
    the system is already initialised.  The agents of the second
    template are never created, and [get_agent] gives the agent of the
    first. *)
Theorem first_template_wins agent :
  creation First 0 = Ok agent →
  let w := (import_module fresh).2 in
  (import_module fresh).1 = Ok () ∧
  attempts _ w = [First] ∧
  get_agent w = Ok agent ∧
  log _ w = [Starting; Initializing;
             if bool_of_agent agent then Initialized else InitializationFailed;
             Completed; Starting; AlreadyInitialized; Completed].
Proof.
  intros Hfirst. run_startup. rewrite Hfirst. by run_startup.
Qed.

(** X22.  When the first template fails with an [Exception], the import goes
    on, and the second template builds the agent: [get_agent] gives the
    agent of the second template. *)
Theorem second_template_takes_over kind message agent :
  creation First 0 = Raised kind message →
  kind ≠ NotException →
  creation Second 1 = Ok agent →
  let w := (import_module fresh).2 in
  (import_module fresh).1 = Ok () ∧
  attempts _ w = [First; Second] ∧
  get_agent w = Ok agent ∧
  is_system_ready w = true.
Proof.
  intros Hfirst Hkind Hsecond. run_startup. rewrite Hfirst.
  destruct kind; [| | done]; run_startup; rewrite Hsecond; by run_startup.
Qed.

(** X23.  When both templates fail with an [Exception], importing the module
    raises nothing: the errors are logged, the global stays unset,
    [is_system_ready] answers false and [get_agent] raises a
    [RuntimeError]; no line says that the initialisation completed. *)
Theorem import_survives_failure kind1 message1 kind2 message2 :
  creation First 0 = Raised kind1 message1 →
  kind1 ≠ NotException →
  creation Second 1 = Raised kind2 message2 →
  kind2 ≠ NotException →
  let w := (import_module fresh).2 in
  (import_module fresh).1 = Ok () ∧
  root_agent _ w = None ∧
  is_system_ready w = false ∧
  (∃ message, get_agent w = Raised RuntimeError message) ∧
  Completed ∉ log _ w.
Proof.
  intros Hfirst Hkind1 Hsecond Hkind2. run_startup. rewrite Hfirst.
  destruct kind1; [| | done]; run_startup; rewrite Hsecond;
    (destruct kind2; [| | done]); run_startup;
    (split; [done |]); (split; [done |]); (split; [done |]);
    (split; [by eexists |]);
    rewrite !elem_of_cons, elem_of_nil; intros H; repeat destruct H as [H | H]; done.
Qed.

(** X24.  An agent whose truth value is false is logged as a failed
    initialisation, and yet the start-up logs that it completed,
    [is_system_ready] answers true and [get_agent] returns that agent:
    the three look at [root_agent is not None] only. *)
Theorem failed_initialization_reads_ready agent :
  creation First 0 = Ok agent →
  bool_of_agent agent = false →
  let w := (import_module fresh).2 in
  InitializationFailed ∈ log _ w ∧
  Completed ∈ log _ w ∧
  is_system_ready w = true ∧
  get_agent w = Ok agent.
Proof.
  intros Hfirst Hfalse. run_startup. rewrite Hfirst. run_startup. rewrite Hfalse.
  split; [| split; [| done]]; rewrite !elem_of_cons; auto 10.
Qed.

(** X25.  Whatever the world, importing the module raises no [Exception]:
    it ends well, or with what is no [Exception] (an interrupt);
    and it calls [get_agent_async] at most twice, the first template's
    before the second's. *)
Theorem import_raises_no_exception w :
  ((import_module w).1 = Ok () ∨ ∃ message, (import_module w).1 = Raised NotException message) ∧
  ∃ calls, attempts _ (import_module w).2 = attempts _ w ++ calls ∧
           (calls = [] ∨ calls = [First] ∨ calls = [Second] ∨ calls = [First; Second]).
Proof.
  run_startup. destruct (root_agent _ w) as [agent |]; run_startup.
  - split; [by left |]. exists []. split; [by rewrite app_nil_r | auto].
  - destruct (creation First _) as [agent | [] message]; run_startup.
    + split; [by left |]. exists [First]. auto.
    + rewrite length_app. cbn [length].
      destruct (creation Second _) as [agent | [] message2]; run_startup;
        (split; [by eauto |]); exists [First; Second]; rewrite <- app_assoc; auto.
    + rewrite length_app. cbn [length].
      destruct (creation Second _) as [agent | [] message2]; run_startup;
        (split; [by eauto |]); exists [First; Second]; rewrite <- app_assoc; auto.
    + split; [by eauto |]. exists [First]. auto.
Qed.

End Diagnose_runs.

Section Diagnose_examples.
Import Diagnose.

Lemma first_template_wins_witness :
  let creation := λ (t : Template) (n : nat), Ok (A := string) "first_agent" in
  attempts _ (import_module string (λ _, true) creation (fresh string)).2 = [First].
Proof.
  intros creation.
  destruct (first_template_wins string (λ _, true) creation "first_agent" eq_refl)
    as (_ & Hattempts & _).
  exact Hattempts.
Defined.

Lemma second_template_takes_over_witness :
  get_agent string (import_module string (λ _, true) first_down (fresh string)).2
    = Ok "diagnose_agent".
Proof.
  destruct (second_template_takes_over string (λ _, true) first_down
              OtherException "Connection refused" "diagnose_agent")
    as (_ & _ & Hget & _); [reflexivity | discriminate | reflexivity |].
  exact Hget.
Defined.

Lemma import_survives_failure_witness :
  let creation := λ (t : Template) (n : nat),
    Raised (A := string) OtherException "Connection refused" in
  (import_module string (λ _, true) creation (fresh string)).1 = Ok () ∧
  is_system_ready string (import_module string (λ _, true) creation (fresh string)).2 = false.
Proof.
  intros creation.
  destruct (import_survives_failure string (λ _, true) creation
              OtherException "Connection refused" OtherException "Connection refused")
    as (Hok & _ & Hready & _); [reflexivity | discriminate | reflexivity | discriminate |].
  split; [exact Hok | exact Hready].
Defined.

Lemma failed_initialization_reads_ready_witness :
  let creation := λ (t : Template) (n : nat), Ok (A := string) "first_agent" in
  is_system_ready string (import_module string (λ _, false) creation (fresh string)).2 = true.
Proof.
  intros creation.
  destruct (failed_initialization_reads_ready string (λ _, false) creation "first_agent")
    as (_ & _ & Hready & _); [reflexivity | reflexivity |].
  exact Hready.
Defined.

End Diagnose_examples.

(** ** The after-tool callback, run twice *)

Section Agent3_more.
Import Json Agent3.

(** X26.  The state keeps one name only: after the callback ran for one tool
    and then for another, the state is what the second run alone would
    have left, with the name of the second tool under ["last_action"];
    the name of the first is in the printed lines only. *)
Theorem last_callback_wins tool1 args1 response1 tool2 args2 response2 w :
  let w1 := (save_last_action_callback tool1 args1 response1 w).2 in
  let w2 := (save_last_action_callback tool2 args2 response2 w1).2 in
  state w2 = state (save_last_action_callback tool2 args2 response2 w).2 ∧
  state w2 !! "last_action" = Some (VStr (name tool2)) ∧
  stdout w2 = stdout w ++ [After (name tool1) args1; Saving (name tool1);
                           After (name tool2) args2; Saving (name tool2)].
Proof.
  cbv [save_last_action_callback print state_set mbind M_bind bind mret M_ret ret].
  cbn [fst snd state stdout].
  split; [apply insert_insert_eq |]. split; [apply lookup_insert_eq |].
  rewrite <- ?app_assoc. reflexivity.
Qed.

End Agent3_more.

(** ** The tools of the API server *)

Section ApiTools_runs.
Import Json McpServer McpListing ApiTools.
Import Plugin (Body, NotJson, NotDict, Dict, Response, mkResponse, status_code, body,
               Exchange, Refused, TimedOut, Answered).

Ltac eval_isinstance'' :=
  repeat match goal with
    | |- context [isinstance (mkExc ?c ?s) ?d] =>
        let b := eval vm_compute in (issubclass c d) in
        change (isinstance (mkExc c s) d) with b
    end.

Ltac run_tool :=
  repeat progress
    (cbv [your_first_function your_second_function requests_post raise_for_status
          response_json data_get try_except_except try_except
          mbind M_bind bind mret M_ret ret raise next_exchange after_request];
     cbn [fst snd network sent status_code body];
     eval_isinstance'').

Lemma your_first_function_total url str w :
  ∃ s, (your_first_function url str w).1 = Return s.
Proof.
  run_tool.
  destruct (default _ (head (network w))) as [reason | reason | [c b]]; run_tool;
    [by eexists | by eexists |].
  destruct ((400 <=? c) && (c <? 600)); run_tool; [by eexists |].
  destruct b as [| | d]; run_tool; by eexists.
Qed.

(** X27.  [your_first_function] raises nothing, whatever the service does:
    it sends one post and returns a string, a success, an error with
    its reason, or an unexpected error. *)
Theorem your_first_function_returns url str w :
  ∃ s,
    your_first_function url str w
      = (Return s, after_request (POST (ApiTools.url url "/your-endpoint") None) w) ∧
    (starts_with "Success! Your function returned: " s ∨
     starts_with "Error: Your function failed. Reason: " s ∨
     starts_with "Unexpected error: " s).
Proof.
  run_tool.
  destruct (default _ (head (network w))) as [reason | reason | [c b]]; run_tool.
  - eexists. split; [done |]. right. left. by eexists.
  - eexists. split; [done |]. right. left. by eexists.
  - destruct ((400 <=? c) && (c <? 600)); run_tool.
    + eexists. split; [done |]. right. left. by eexists.
    + destruct b as [| | d]; run_tool.
      * eexists. split; [done |]. right. left. by eexists.
      * eexists. split; [done |]. right. right. by eexists.
      * eexists. split; [done |]. left. by eexists.
Qed.

(** X28.  An answer without a ['result'] is a success all the same, as is an
    answer with any status below 400: the function reports what
    [str(None)] gives. *)
Theorem missing_result_is_success url str w r d :
  next_exchange w = Answered r →
  (400 <=? status_code r) && (status_code r <? 600) = false →
  body r = Dict d →
  d !! "result" = None →
  (your_first_function url str w).1
    = Return ("Success! Your function returned: " +:+ str VNone).
Proof.
  unfold next_exchange. intros Hnext Hstatus Hbody Hresult.
  run_tool. rewrite Hnext. run_tool. rewrite Hstatus. run_tool.
  rewrite Hbody. run_tool. by rewrite Hresult.
Qed.

Lemma missing_result_is_success_witness :
  let w := mkWorld [Answered (mkResponse 204 (Dict ∅))] [] in
  (your_first_function (Some "http://localhost:8000") (λ _, "None") w).1
    = Return "Success! Your function returned: None".
Proof.
  intros w.
  apply (missing_result_is_success (Some "http://localhost:8000") (λ _, "None") w
           (mkResponse 204 (Dict ∅)) ∅); reflexivity.
Defined.

(** X29.  A failure of the service behind [your_first_function] reaches the
    client of [call_tool] as the result of a tool that was executed
    successfully: the function has turned the exception into a string,
    so [call_tool] prints its two lines of a success and returns that
    string as JSON, which the client reads back; no object with an
    ["error"] is made. *)
Theorem tool_failure_arrives_as_result (available_tools : gmap string FunctionTool)
    url str w tool_to_call arguments out :
  available_tools !! "your_first_function" = Some tool_to_call →
  (∀ s, (your_first_function url str w).1 = Return s →
        run_async tool_to_call arguments = Return (VStr s)) →
  ∃ s,
    (your_first_function url str w).1 = Return s ∧
    call_tool available_tools "your_first_function" arguments out
      = (Return [mkTextContent "text" (quote s)],
         out ++ [Received "your_first_function" arguments; Executed "your_first_function"]) ∧
    read_str (quote s) = Some s.
Proof.
  intros Htool Hrun.
  destruct (your_first_function_total url str w) as (s & Heq).
  exists s. split; [done |]. split.
  - cbv [call_tool McpServer.print McpServer.call try_except mbind M_bind bind mret M_ret
         ret raise].
    cbn [fst snd]. rewrite Htool. rewrite (Hrun s Heq).
    by rewrite <- app_assoc.
  - change (read_str (quote s))
      with (match read_string (escape s +:+ dquote +:+ EmptyString) with
            | Some (s, EmptyString) => Some s
            | _ => None
            end).
    by rewrite read_escape.
Qed.

Lemma tool_failure_arrives_as_result_witness :
  let w := mkWorld [TimedOut "Read timed out."] [] in
  let s := "Error: Your function failed. Reason: Read timed out." in
  let tool := McpServer.mkTool "your_first_function" (λ _, Return (VStr s)) in
  ∃ s',
    (your_first_function (Some "http://localhost:8000") (λ _, "None") w).1 = Return s' ∧
    call_tool (registry [tool]) "your_first_function" ∅ []
      = (Return [mkTextContent "text" (quote s')],
         [Received "your_first_function" ∅; Executed "your_first_function"]) ∧
    read_str (quote s') = Some s'.
Proof.
  intros w s tool.
  apply (tool_failure_arrives_as_result (registry [tool])
           (Some "http://localhost:8000") (λ _, "None") w tool ∅ []).
  - reflexivity.
  - intros s' Hs'. injection Hs' as <-. reflexivity.
Defined.

(** X30.  [your_second_function] raises nothing either: it sends one post
    with the message and the user id as its JSON body, and returns a
    string, a success or a failure with its reason. *)
Theorem your_second_function_returns url str parameter1 parameter2 w :
  ∃ s,
    your_second_function url str parameter1 parameter2 w
      = (Return s,
         after_request
           (POST (ApiTools.url url "/send-notification")
                 (Some (VDict [("message", VStr parameter1); ("user_id", VInt parameter2)])))
           w) ∧
    (starts_with "Notification sent successfully! Message ID: " s ∨
     starts_with "Failed to send notification. Error: " s).
Proof.
  run_tool.
  destruct (default _ (head (network w))) as [reason | reason | [c b]]; run_tool.
  - eexists. split; [done |]. right. by eexists.
  - eexists. split; [done |]. right. by eexists.
  - destruct ((400 <=? c) && (c <? 600)); run_tool.
    + eexists. split; [done |]. right. by eexists.
    + destruct b as [| | d]; run_tool.
      * eexists. split; [done |]. right. by eexists.
      * eexists. split; [done |]. right. by eexists.
      * eexists. split; [done |]. left. by eexists.
Qed.

End ApiTools_runs.
